(** * fetch-utils.js: the data-file fetcher of the test-timings dashboard

    A shallow embedding of [src/fetch-utils.js] and the properties of its
    fetch-resolution logic.

    - JavaScript values that come out of [response.json()] are the
      inductive type [val]; the operations the code applies to them
      (truthiness, [v.name], [v[i]], [indexOf], [concat], [endsWith],
      template-literal conversion) are functions that follow ECMAScript,
      including the [TypeError]s they raise on values of the wrong shape.
    - The network is a function [Network] from the requests made so far and
      the requested URL to what [fetch] settles with: a rejection (network
      failure) or a [Response].
    - [async] code is written in the monad [M]: it threads the list of
      requested URLs and ends with a value, a thrown exception (a rejected
      promise) or, for the pagination loop, [Pending] when the fuel is
      exhausted.
    - Strings are [String.string] (8-bit characters); JavaScript strings are
      UTF-16, the two agree on ASCII text, which is what the identifiers,
      file names and URLs of this program are. [console.log] and
      [console.error] only print; what is kept of them is the evaluation of
      their template literals, which can throw. *)

From Stdlib Require Import String Ascii List ZArith Bool Lia DecimalString.
Import ListNotations.
Local Open Scope string_scope.
Local Open Scope Z_scope.


(** ** JavaScript values *)

(** Numbers are integers here (push ids, lengths, indices); a JSON number
    with a fraction or an exponent is not represented. The fields of an
    object are its own properties, each key once. *)
#[warnings="-register-all"]
Inductive val : Type :=
| Undefined
| Null
| Bool (b : bool)
| Num (n : Z)
| Str (s : string)
| Arr (elements : list val)
| Obj (fields : list (string * val)).

(** Thrown values: [new Error(msg)], and the engine's [TypeError] and
    [SyntaxError]. The text of an engine-raised message differs between
    engines; the texts below are V8's. *)
Inductive exn : Type :=
| Error (msg : string)
| TypeError (msg : string)
| SyntaxError (msg : string).

(** [error.message] *)
Definition message (e : exn) : string :=
  match e with Error m | TypeError m | SyntaxError m => m end.

(** Pure operations either produce a value or throw. *)
Definition checked (A : Type) : Type := (exn + A)%type.

Definition value {A} (a : A) : checked A := inr a.
Definition raise {A} (e : exn) : checked A := inl e.

Definition check_bind {A B} (c : checked A) (k : A -> checked B) : checked B :=
  match c with inl e => inl e | inr a => k a end.

(** ** Strings *)

(** [s.startsWith(p)] *)
Fixpoint startsWith (s p : string) {struct p} : bool :=
  match p with
  | EmptyString => true
  | String a p' =>
      match s with
      | EmptyString => false
      | String b s' => Ascii.eqb a b && startsWith s' p'
      end
  end.

(** [s.endsWith(t)]: some tail of [s] is [t]. *)
Fixpoint endsWith (s t : string) : bool :=
  String.eqb s t ||
  match s with
  | EmptyString => false
  | String _ s' => endsWith s' t
  end.

(** The string without its first [n] characters. *)
Fixpoint skip (n : nat) (s : string) : string :=
  match n, s with
  | O, _ => s
  | S n', String _ s' => skip n' s'
  | S _, EmptyString => EmptyString
  end.

(** [s.replace(pat, rep)] for a string pattern: the first occurrence of
    [pat] is replaced. ([rep] has no [$] in this program, so it is taken
    literally.) *)
Fixpoint replace (s pat rep : string) : string :=
  if startsWith s pat then rep ++ skip (String.length pat) s
  else match s with
       | EmptyString => EmptyString
       | String c s' => String c (replace s' pat rep)
       end.

(** [s.indexOf(pat)] on strings: position of the first occurrence, or -1. *)
Fixpoint indexOfString (s pat : string) : Z :=
  if startsWith s pat then 0
  else match s with
       | EmptyString => -1
       | String _ s' =>
           let i := indexOfString s' pat in
           if i <? 0 then -1 else i + 1
       end.

(** Decimal rendering of an integer, as [String(n)] gives it for the integers
    a JavaScript number holds exactly. *)
Definition decimal (n : Z) : string := NilZero.string_of_int (Z.to_int n).

(** ** Operations on values *)

(** ToBoolean *)
Definition truthy (v : val) : bool :=
  match v with
  | Undefined | Null => false
  | Bool b => b
  | Num n => negb (n =? 0)
  | Str s => negb (String.eqb s "")
  | Arr _ | Obj _ => true
  end.

(** [a || b] *)
Definition or_else (a b : val) : val := if truthy a then a else b.

(** [v === "s"] *)
Definition is_string (v : val) (s : string) : bool :=
  match v with Str t => String.eqb t s | _ => false end.

(** [v === n] for a number literal [n] *)
Definition is_number (v : val) (n : Z) : bool :=
  match v with Num m => m =? n | _ => false end.

(** Own property of a parsed JSON object. *)
Fixpoint lookup (fields : list (string * val)) (name : string) : val :=
  match fields with
  | [] => Undefined
  | (k, v) :: rest => if String.eqb k name then v else lookup rest name
  end.

Definition has_key (fields : list (string * val)) (name : string) : bool :=
  existsb (fun kv => String.eqb (fst kv) name) fields.

(** [v.name], for the names this program reads: [results], [id],
    [job_property_names], [next] and [length]. None of them is inherited
    from a prototype, except [length] of arrays and strings. Reading a
    property of [null] or [undefined] throws. *)
Definition prop (v : val) (name : string) : checked val :=
  match v with
  | Undefined =>
      raise (TypeError ("Cannot read properties of undefined (reading '" ++ name ++ "')"))
  | Null =>
      raise (TypeError ("Cannot read properties of null (reading '" ++ name ++ "')"))
  | Obj fields => value (lookup fields name)
  | Arr l =>
      value (if String.eqb name "length" then Num (Z.of_nat (List.length l)) else Undefined)
  | Str s =>
      value (if String.eqb name "length" then Num (Z.of_nat (String.length s)) else Undefined)
  | Bool _ | Num _ => value Undefined
  end.

(** [v[i]] for an integer [i]. An array has its elements at 0 .. length-1
    and nothing elsewhere (in particular nothing at -1); a string has its
    characters; an object is read at the key that spells [i]. *)
Definition at_index (v : val) (i : Z) : checked val :=
  match v with
  | Undefined =>
      raise (TypeError ("Cannot read properties of undefined (reading '" ++ decimal i ++ "')"))
  | Null =>
      raise (TypeError ("Cannot read properties of null (reading '" ++ decimal i ++ "')"))
  | Arr l =>
      value (if i <? 0 then Undefined else nth (Z.to_nat i) l Undefined)
  | Str s =>
      value (if i <? 0 then Undefined
             else match String.get (Z.to_nat i) s with
                  | Some c => Str (String c EmptyString)
                  | None => Undefined
                  end)
  | Obj fields => value (lookup fields (decimal i))
  | Bool _ | Num _ => value Undefined
  end.

(** ToString, as a template literal [`${v}`] applies it. An array is its
    elements joined by commas, [null] and [undefined] elements giving the
    empty string. An object is ["[object Object]"] unless it has an own
    [toString] property: a parsed JSON value is never callable, so the
    conversion to a primitive then fails. *)
Fixpoint to_string (v : val) : checked string :=
  match v with
  | Undefined => value "undefined"
  | Null => value "null"
  | Bool true => value "true"
  | Bool false => value "false"
  | Num n => value (decimal n)
  | Str s => value s
  | Arr l =>
      (fix join (l : list val) : checked string :=
         match l with
         | [] => value ""
         | x :: rest =>
             check_bind
               (match x with
                | Undefined | Null => value ""
                | _ => to_string x
                end)
               (fun e =>
                  match rest with
                  | [] => value e
                  | _ :: _ => check_bind (join rest) (fun r => value (e ++ "," ++ r))
                  end)
         end) l
  | Obj fields =>
      if has_key fields "toString"
      then raise (TypeError "Cannot convert object to primitive value")
      else value "[object Object]"
  end.

(** [a.concat(v)] on an array [a]: an array argument is spread, any other
    value is appended as one element. *)
Definition concat (a : list val) (v : val) : list val :=
  match v with
  | Arr l => (a ++ l)%list
  | _ => (a ++ [v])%list
  end.

(** Position of the first element of [l] that is [=== "s"], from [i] on. *)
Fixpoint indexOfFrom (l : list val) (s : string) (i : Z) : Z :=
  match l with
  | [] => -1
  | x :: rest => if is_string x s then i else indexOfFrom rest s (i + 1)
  end.

(** [v.indexOf("s")]: [Array.prototype.indexOf] on an array,
    [String.prototype.indexOf] on a string; no other JSON value has a
    callable [indexOf]. *)
Definition indexOf (v : val) (s : string) : checked Z :=
  match v with
  | Arr l => value (indexOfFrom l s 0)
  | Str t => value (indexOfString t s)
  | _ => raise (TypeError "propertyNames.indexOf is not a function")
  end.

(** [v.endsWith("s")] for a truthy [v]: only a string has the method. *)
Definition endsWith_method (v : val) (s : string) : checked bool :=
  match v with
  | Str t => value (endsWith t s)
  | _ => raise (TypeError "jobName.endsWith is not a function")
  end.

(** ** The network and asynchronous code *)

(** A [Response]: its status line and, for [response.json()], the value its
    body parses to ([None]: the body is not valid JSON). *)
Record Response : Type := mkResponse {
  status : Z;
  statusText : string;
  body : option val
}.

(** [response.ok]: the status is in the range 200-299. *)
Definition ok (r : Response) : bool := (200 <=? status r) && (status r <=? 299).

(** [new Response(null, { status, statusText })]. The constructor accepts
    a status text that is a valid HTTP reason phrase; the messages this
    program passes are taken to be. *)
Definition newResponse (st : Z) (text : string) : Response :=
  mkResponse st text None.

(** What [fetch(url)] settles with. *)
Inductive FetchResult : Type :=
| NetworkFailure (msg : string)
| Responded (r : Response).

(** The requests made so far, oldest first. *)
Definition history : Type := list string.

(** The network answers a request knowing the requests made before. *)
Definition Network : Type := history -> string -> FetchResult.

(** How an asynchronous call ends. *)
Inductive completion (A : Type) : Type :=
| Normal (a : A)
| Thrown (e : exn)
| Pending.

Arguments Normal {A} a.
Arguments Thrown {A} e.
Arguments Pending {A}.

Definition M (A : Type) : Type := history -> completion A * history.

Definition ret {A} (a : A) : M A := fun h => (Normal a, h).

Definition throw {A} (e : exn) : M A := fun h => (Thrown e, h).

Definition pending {A} : M A := fun h => (Pending, h).

Definition bind {A B} (m : M A) (k : A -> M B) : M B :=
  fun h =>
    match m h with
    | (Normal a, h') => k a h'
    | (Thrown e, h') => (Thrown e, h')
    | (Pending, h') => (Pending, h')
    end.

(** [try { m } catch (error) { handler error }] *)
Definition try_catch {A} (m : M A) (handler : exn -> M A) : M A :=
  fun h =>
    match m h with
    | (Thrown e, h') => handler e h'
    | other => other
    end.

Definition lift {A} (c : checked A) : M A :=
  match c with inl e => throw e | inr a => ret a end.

Declare Scope js_scope.
Delimit Scope js_scope with js.
Notation "x <- m ;; k" := (bind m (fun x => k))
  (at level 61, m at next level, right associativity) : js_scope.
Local Open Scope js_scope.

(** ** The page *)

(** [window.location]: the transport scheme, the host name and what
    [new URLSearchParams(window.location.search).get('kind')] returns
    ([None] for [null]: the query string has no [kind] parameter). *)
Record Location : Type := mkLocation {
  protocol : string;
  hostname : string;
  kind : option string
}.

(** The result of [findTimingsJobsForRevision]. *)
Record TimingsJobs : Type := mkTimingsJobs {
  xpcshell : val;
  mochitest : val
}.

(** [timingsJobs[harness]] *)
Definition timingsJob (t : TimingsJobs) (harness : string) : val :=
  if String.eqb harness "xpcshell" then xpcshell t
  else if String.eqb harness "mochitest" then mochitest t
  else Undefined.

(** ** The regular expression of [fetchData]

    [/^(xpcshell|mochitest)-try-([a-f0-9]{40})\.json$/] *)

(** [[a-f0-9]] *)
Definition hexLower (c : ascii) : bool :=
  let n := nat_of_ascii c in
  ((97 <=? n) && (n <=? 102) || (48 <=? n) && (n <=? 57))%nat.

(** [p] at the start of [s]: what follows it. *)
Definition literal (p s : string) : option string :=
  if startsWith s p then Some (skip (String.length p) s) else None.

(** [[a-f0-9]{n}] at the start of [s]: the match and what follows it. *)
Fixpoint hexRun (n : nat) (s : string) : option (string * string) :=
  match n with
  | O => Some (EmptyString, s)
  | S n' =>
      match s with
      | String c s' =>
          if hexLower c
          then match hexRun n' s' with
               | Some (m, rest) => Some (String c m, rest)
               | None => None
               end
          else None
      | EmptyString => None
      end
  end.

(** [filename.match(...)]: the two captured groups, [None] for [null]. The
    alternatives of the first group start with different letters and the
    second group has a fixed length, so the match is found without
    backtracking. *)
Definition tryMatch (filename : string) : option (string * string) :=
  let group1 :=
    match literal "xpcshell" filename with
    | Some rest => Some ("xpcshell", rest)
    | None =>
        match literal "mochitest" filename with
        | Some rest => Some ("mochitest", rest)
        | None => None
        end
    end in
  match group1 with
  | Some (requestedHarness, rest) =>
      match literal "-try-" rest with
      | Some rest =>
          match hexRun 40 rest with
          | Some (revision, rest) =>
              if String.eqb rest ".json" then Some (requestedHarness, revision) else None
          | None => None
          end
      | None => None
      end
  | None => None
  end.

(** ** URLs *)

Definition pushUrl (revision : string) : string :=
  "https://treeherder.mozilla.org/api/project/try/push/?full=true&count=10&revision="
  ++ revision.

Definition jobsUrl (pushId : string) : string :=
  "https://treeherder.mozilla.org/api/jobs/?push_id=" ++ pushId.

Definition artifactUrl (taskId filename : string) : string :=
  "https://firefox-ci-tc.services.mozilla.com/api/queue/v1/task/" ++ taskId
  ++ "/runs/0/artifacts/public/" ++ filename.

Definition indexUrl (repository harness filename : string) : string :=
  "https://firefox-ci-tc.services.mozilla.com/api/index/v1/task/gecko.v2."
  ++ repository ++ ".latest.source.test-info-" ++ harness
  ++ "-timings/artifacts/public/" ++ filename.

Definition localUrl (filename : string) : string := "./data/" ++ filename.

(** ** The scan of the job rows (lines 70-90) *)

(** One iteration of [for (const job of allJobs)]. *)
Definition scanJob (jobTypeNameIndex taskIdIndex stateIndex : Z)
    (timingsJobs : TimingsJobs) (job : val) : checked TimingsJobs :=
  check_bind (at_index job jobTypeNameIndex) (fun jobName =>
  check_bind (at_index job stateIndex) (fun state =>
  check_bind (at_index job taskIdIndex) (fun taskId =>
  if negb (is_string state "completed") || negb (truthy jobName) || negb (truthy taskId)
  then value timingsJobs
  else
    check_bind (endsWith_method jobName "xpcshell-timings-rev") (fun isXpcshell =>
    if isXpcshell
    then value (mkTimingsJobs taskId (mochitest timingsJobs))
    else
      check_bind (endsWith_method jobName "mochitest-timings-rev") (fun isMochitest =>
      if isMochitest
      then value (mkTimingsJobs (xpcshell timingsJobs) taskId)
      else value timingsJobs))))).

Fixpoint scanJobs (jobTypeNameIndex taskIdIndex stateIndex : Z)
    (timingsJobs : TimingsJobs) (allJobs : list val) : checked TimingsJobs :=
  match allJobs with
  | [] => value timingsJobs
  | job :: rest =>
      check_bind (scanJob jobTypeNameIndex taskIdIndex stateIndex timingsJobs job)
        (fun timingsJobs' =>
           scanJobs jobTypeNameIndex taskIdIndex stateIndex timingsJobs' rest)
  end.

(** [if (v) console.log(`... ${v}`)]: nothing but the conversion of [v]. *)
Definition logIfFound (v : val) : checked unit :=
  if truthy v then check_bind (to_string v) (fun _ => value tt) else value tt.

(** Lines 65-99: what [findTimingsJobsForRevision] does with the property
    names and the rows once every page is in. *)
Definition selectTimingsJobs (propertyNames : val) (allJobs : list val)
    : checked TimingsJobs :=
  check_bind (indexOf propertyNames "job_type_name") (fun jobTypeNameIndex =>
  check_bind (indexOf propertyNames "task_id") (fun taskIdIndex =>
  check_bind (indexOf propertyNames "state") (fun stateIndex =>
  check_bind
    (scanJobs jobTypeNameIndex taskIdIndex stateIndex (mkTimingsJobs Null Null) allJobs)
    (fun timingsJobs =>
  check_bind (logIfFound (xpcshell timingsJobs)) (fun _ =>
  check_bind (logIfFound (mochitest timingsJobs)) (fun _ =>
  value timingsJobs)))))).

Section Program.

Variable net : Network.
Variable location : Location.

(** [fetch(url)]: the request is recorded; a network failure rejects with a
    [TypeError]. *)
Definition fetch (url : string) : M Response :=
  fun h =>
    match net h url with
    | NetworkFailure msg => (Thrown (TypeError msg), (h ++ [url])%list)
    | Responded r => (Normal r, (h ++ [url])%list)
    end.

(** [response.json()] *)
Definition json (response : Response) : M val :=
  match body response with
  | Some v => ret v
  | None => throw (SyntaxError "Unexpected end of JSON input")
  end.

(** lines 18-24; [fetch] converts its argument to a string. *)
Definition fetchJson (url : val) : M val :=
  address <- lift (to_string url) ;;
  response <- fetch address ;;
  if negb (ok response) then ret Null
  else json response.

(** lines 10-15 *)
Definition fetchFromCI (harness filename : string) : M Response :=
  let repository :=
    if String.eqb (hostname location) "fqueze.github.io" then "try" else "mozilla-central" in
  fetch (indexUrl repository harness filename).

(** lines 5-8 *)
Definition getHarnessType : string :=
  match kind location with
  | Some k => if String.eqb k "" then "xpcshell" else k
  | None => "xpcshell"
  end.

(** lines 150-155: the harness of a file that is not a try-revision file. *)
Definition detectHarness (filename : string) : string :=
  if startsWith filename "mochitest-" then "mochitest"
  else if String.eqb filename "index.json" then getHarnessType
  else "xpcshell".

(** lines 49-61: the [while (url)] loop. [fuel] bounds the number of pages
    fetched; the loop itself has no bound. *)
Fixpoint collectJobs (fuel : nat) (pushId : val) (allJobs : list val)
    (propertyNames : val) (url : val) : M (list val * val) :=
  if truthy url then
    match fuel with
    | O => pending
    | S fuel' =>
        result <- fetchJson url ;;
        if negb (truthy result)
        then
          shown <- lift (to_string pushId) ;;
          throw (Error ("Failed to fetch jobs for push ID " ++ shown))
        else
          results <- lift (prop result "results") ;;
          let allJobs := concat allJobs (or_else results (Arr [])) in
          len <- lift (prop propertyNames "length") ;;
          propertyNames <-
            (if negb (truthy len)
             then
               names <- lift (prop result "job_property_names") ;;
               ret (or_else names (Arr []))
             else ret propertyNames) ;;
          next <- lift (prop result "next") ;;
          collectJobs fuel' pushId allJobs propertyNames next
    end
  else ret (allJobs, propertyNames).

(** line 37: [!pushResult || !pushResult.results ||
    pushResult.results.length === 0], evaluated left to right. *)
Definition noPush (pushResult : val) : checked bool :=
  if negb (truthy pushResult) then value true
  else
    check_bind (prop pushResult "results") (fun results =>
    if negb (truthy results) then value true
    else
      check_bind (prop results "length") (fun len =>
      value (is_number len 0))).

(** lines 28-104. The [catch] clause logs the error and throws it again. *)
Definition findTimingsJobsForRevision (fuel : nat) (revision : string)
    : M TimingsJobs :=
  try_catch
    (pushResult <- fetchJson (Str (pushUrl revision)) ;;
     missing <- lift (noPush pushResult) ;;
     if (missing : bool)
     then throw (Error ("No push found for revision " ++ revision ++ " on try"))
     else
       results <- lift (prop pushResult "results") ;;
       first <- lift (at_index results 0) ;;
       pushId <- lift (prop first "id") ;;
       shown <- lift (to_string pushId) ;;
       collected <- collectJobs fuel pushId [] (Arr []) (Str (jobsUrl shown)) ;;
       lift (selectTimingsJobs (snd collected) (fst collected)))
    (fun error => throw error).

(** What the [try] block of the try-revision branch returns: a response, or
    the promise of a [fetch] it has just started. *)
Inductive returned : Type :=
| Settled (response : Response)
| Promise (url : string).

(** lines 113-146. The first artifact fetch is awaited inside the [try]
    block, so its rejection reaches the [catch] clause. The fallback is
    [return fetch(artifactUrl)] without [await]: the block is left with the
    promise, and the [async] function settles with whatever that promise
    settles with, a rejection included. *)
Definition fetchTryRevision (fuel : nat) (filename requestedHarness revision : string)
    : M Response :=
  r <- try_catch
         (timingsJobs <- findTimingsJobsForRevision fuel revision ;;
          found <-
            (if truthy (timingsJob timingsJobs requestedHarness)
             then
               taskId <- lift (to_string (timingsJob timingsJobs requestedHarness)) ;;
               response <- fetch (artifactUrl taskId filename) ;;
               ret (if ok response then Some response else None)
             else ret None) ;;
          match found with
          | Some response => ret (Settled response)
          | None =>
              if String.eqb requestedHarness "xpcshell" && truthy (mochitest timingsJobs)
              then
                let mochitestFilename := replace filename "xpcshell-" "mochitest-" in
                taskId <- lift (to_string (mochitest timingsJobs)) ;;
                ret (Promise (artifactUrl taskId mochitestFilename))
              else
                throw (Error ("No " ++ requestedHarness
                              ++ "-timings job found for revision " ++ revision))
          end)
         (fun error => ret (Settled (newResponse 404 (message error)))) ;;
  match r with
  | Settled response => ret response
  | Promise url => fetch url
  end.

(** lines 148-173: remote files that are not try-revision files. *)
Definition fetchRemote (filename : string) : M Response :=
  let harness := detectHarness filename in
  response <- fetchFromCI harness filename ;;
  if ok response then ret response
  else if startsWith filename "xpcshell-try-"
  then
    let mochitestFilename := replace filename "xpcshell-" "mochitest-" in
    fetchFromCI "mochitest" mochitestFilename
  else ret response.

(** lines 175-196: local files. *)
Definition fetchLocal (filename : string) : M Response :=
  found <- try_catch
             (response <- fetch (localUrl filename) ;;
              ret (if ok response then Some response else None))
             (fun error => ret None) ;;
  match found with
  | Some response => ret response
  | None =>
      if startsWith filename "xpcshell-try-"
      then
        let mochitestFilename := replace filename "xpcshell-" "mochitest-" in
        fetch (localUrl mochitestFilename)
      else fetch (localUrl filename)
  end.

(** lines 108-198 *)
Definition fetchData (fuel : nat) (filename : string) : M Response :=
  if String.eqb (protocol location) "https:"
  then
    match tryMatch filename with
    | Some (requestedHarness, revision) =>
        fetchTryRevision fuel filename requestedHarness revision
    | None => fetchRemote filename
    end
  else fetchLocal filename.

End Program.


(** * Specification vocabulary *)

(** How a pure operation's result settles a call: [lift c h = (outcome c, h)]. *)
Definition outcome {A} (c : checked A) : completion A :=
  match c with inl e => Thrown e | inr a => Normal a end.

(** [h'] continues [h]: the requests of [h] and then some more. *)
Definition extends (h h' : history) : Prop := exists rest, h' = (h ++ rest)%list.

(** Every character is a lowercase hexadecimal digit. *)
Fixpoint allHexLower (s : string) : bool :=
  match s with
  | EmptyString => true
  | String c s' => hexLower c && allHexLower s'
  end.

(** The try-revision file names, in the words of the data model:
    [<harness>-try-<40-hex-revision>.json]. *)
Definition TryRevisionFilename (filename harness revision : string) : Prop :=
  (harness = "xpcshell" \/ harness = "mochitest") /\
  String.length revision = 40%nat /\
  allHexLower revision = true /\
  filename = harness ++ "-try-" ++ revision ++ ".json".

(** The repository segment of the index URL (line 12). *)
Definition repositoryOf (location : Location) : string :=
  if String.eqb (hostname location) "fqueze.github.io" then "try" else "mozilla-central".

(** A call only adds requests to the history. *)
Definition monotone {A} (m : M A) : Prop := forall h, extends h (snd (m h)).

(** The first thing a call does is to request [url]. *)
Definition begins {A} (url : string) (m : M A) : Prop :=
  forall h, exists rest, snd (m h) = (h ++ url :: rest)%list.

(** ** Job rows *)

(** The cell of a row in the column called [name]: the property names and
    the row are read side by side; [undefined] when there is no such
    column or the row is too short. *)
Fixpoint field (names : list val) (name : string) (cells : list val) : val :=
  match names with
  | [] => Undefined
  | n :: names' =>
      if is_string n name then hd Undefined cells
      else field names' name (tl cells)
  end.

(** A row counts for [harness]: it is completed, has a job-type name and a
    task id, and the name ends with [<harness>-timings-rev]. *)
Definition qualifies (names : list val) (harness : string) (cells : list val) : bool :=
  is_string (field names "state" cells) "completed" &&
  truthy (field names "job_type_name" cells) &&
  truthy (field names "task_id" cells) &&
  match field names "job_type_name" cells with
  | Str jobName => endsWith jobName (harness ++ "-timings-rev")
  | _ => false
  end.

(** The task id of the last row that counts for [harness], [null] if none. *)
Definition lastTaskId (names : list val) (harness : string) (rows : list (list val)) : val :=
  match find (qualifies names harness) (rev rows) with
  | Some cells => field names "task_id" cells
  | None => Null
  end.

Definition stringOrFalsy (v : val) : bool :=
  match v with
  | Str _ => true
  | _ => negb (truthy v)
  end.

(** [`${v}`] does not throw. *)
Definition printable (v : val) : bool :=
  match to_string v with
  | inr _ => true
  | inl _ => false
  end.

(** The data model's job record: the type name is a string when there is
    one, and the task id can be written into a URL. *)
Definition typedJob (names : list val) (cells : list val) : bool :=
  stringOrFalsy (field names "job_type_name" cells) &&
  printable (field names "task_id" cells).

(** What one row does to the result so far. *)
Definition record (names : list val) (found : TimingsJobs) (cells : list val) : TimingsJobs :=
  if qualifies names "xpcshell" cells
  then mkTimingsJobs (field names "task_id" cells) (mochitest found)
  else if qualifies names "mochitest" cells
       then mkTimingsJobs (xpcshell found) (field names "task_id" cells)
       else found.

(** ** Paginated listings *)

(** [v.name] of a value that is neither [null] nor [undefined]. *)
Definition member (v : val) (name : string) : val :=
  match prop v name with
  | inr x => x
  | inl _ => Undefined
  end.

(** The rows of a page: its [results] array, nothing when it has none (a
    [results] that is not an array counts as one row). *)
Definition pageRows (page : val) : list val :=
  match member page "results" with
  | Arr rows => rows
  | v => if truthy v then [v] else []
  end.

(** The property names a page carries. *)
Definition pageNames (page : val) : val :=
  or_else (member page "job_property_names") (Arr []).

(** The property names once [pages] have been read: they are taken from a
    page as long as the names held so far have no (truthy) length. *)
Fixpoint propertyNamesAfter (current : val) (pages : list val) : val :=
  match pages with
  | [] => current
  | page :: pages' =>
      propertyNamesAfter
        (if truthy (member current "length") then current else pageNames page)
        pages'
  end.

(** How a listing ends: its last page has no [next], or a page fails. *)
Inductive ending : Type := Complete | Failed.

(** [Listing net h url pages e h']: from history [h], following [url] and
    then the [next] link of each page, the network serves [pages], in this
    order, and then the listing ends as [e]; [h'] is the history after it. *)
Inductive Listing (net : Network) : history -> val -> list val -> ending -> history -> Prop :=
| Listing_complete (h : history) (url : val) :
    truthy url = false ->
    Listing net h url [] Complete h
| Listing_failed (h : history) (url : val) (address : string) (r : Response) :
    truthy url = true ->
    to_string url = value address ->
    net h address = Responded r ->
    ok r = false ->
    Listing net h url [] Failed (h ++ [address])%list
| Listing_page (h : history) (url : val) (address : string) (r : Response)
    (page : val) (pages : list val) (e : ending) (h' : history) :
    truthy url = true ->
    to_string url = value address ->
    net h address = Responded r ->
    ok r = true ->
    body r = Some page ->
    truthy page = true ->
    Listing net (h ++ [address])%list (member page "next") pages e h' ->
    Listing net h url (page :: pages) e h'.

(** The push lookup found a push: [{ results: [{ id }, ...] }]. *)
Definition PushFound (pushResult pushId : val) : Prop :=
  exists fields first others,
    pushResult = Obj fields /\
    lookup fields "results" = Arr (first :: others) /\
    prop first "id" = value pushId.

(** [m'] agrees with [m] wherever [m] has settled (is not [Pending]). *)
Definition agrees {A} (m m' : M A) : Prop :=
  forall h, fst (m h) <> Pending -> m' h = m h.

(** * Example pages and networks *)

(** A network that answers from a table, whatever was requested before;
    a URL that is not listed gets a 404. *)
Fixpoint serve (table : list (string * FetchResult)) (h : history) (url : string)
    : FetchResult :=
  match table with
  | [] => Responded (mkResponse 404 "Not Found" None)
  | (u, answer) :: rest => if String.eqb u url then answer else serve rest h url
  end.

Definition success (v : val) : FetchResult := Responded (mkResponse 200 "OK" (Some v)).

Definition notFound : FetchResult := Responded (mkResponse 404 "Not Found" None).

(** A page served over https, with no [kind] parameter. *)
Definition dashboard : Location := mkLocation "https:" "tests.firefox.dev" None.

(** Three URLs: a missing file, a JSON file and a file that is not JSON. *)
Definition jsonServer : Network :=
  serve [ ("https://example.org/missing.json", notFound);
          ("https://example.org/data.json", success (Obj [("tests", Arr [])]));
          ("https://example.org/broken.json", Responded (mkResponse 200 "OK" None)) ].

(** The index has none of the xpcshell files but has a mochitest file. *)
Definition indexServer : Network :=
  serve [ (indexUrl "mozilla-central" "mochitest" "mochitest-try-abc.json",
           success (Obj [("tests", Arr [])])) ].

Definition revision0 : string := "0123456789abcdef0123456789abcdef01234567".

Definition columns : list val := [Str "job_type_name"; Str "task_id"; Str "state"].

(** Two completed xpcshell jobs J1 then J2, a running mochitest job and a
    completed one without a task id. *)
Definition someRows : list (list val) :=
  [ [Str "source-test-info-xpcshell-timings-rev"; Str "J1"; Str "completed"];
    [Str "source-test-info-mochitest-timings-rev"; Str "M1"; Str "running"];
    [Str "source-test-info-xpcshell-timings-rev"; Str "J2"; Str "completed"];
    [Str "source-test-info-mochitest-timings-rev"; Null; Str "completed"];
    [Str "build-linux64/opt"; Str "B1"; Str "completed"] ].

(** The push of [revision0] and its two pages of jobs. *)
Definition pushBody : val := Obj [("results", Arr [Obj [("id", Num 555)]])].

Definition page2Url : string :=
  "https://treeherder.mozilla.org/api/jobs/?page=2&push_id=555".

Definition page1 : val :=
  Obj [ ("job_property_names", Arr columns);
        ("next", Str page2Url);
        ("results", Arr (map Arr (firstn 2 someRows))) ].

Definition page2 : val :=
  Obj [ ("job_property_names", Arr columns);
        ("next", Null);
        ("results", Arr (map Arr (skipn 2 someRows))) ].

Definition treeherder : Network :=
  serve [ (pushUrl revision0, success pushBody);
          (jobsUrl "555", success page1);
          (page2Url, success page2) ].

(** The same listing, but the second page fails. *)
Definition brokenTreeherder : Network :=
  serve [ (pushUrl revision0, success pushBody);
          (jobsUrl "555", success page1);
          (page2Url, Responded (mkResponse 500 "Internal Server Error" None)) ].

(** A push whose jobs fit on one page. *)
Definition singlePage (rows : list (list val)) : val :=
  Obj [ ("job_property_names", Arr columns);
        ("next", Null);
        ("results", Arr (map Arr rows)) ].

Definition xpcshellFile : string := "xpcshell-try-" ++ revision0 ++ ".json".
Definition mochitestFile : string := "mochitest-try-" ++ revision0 ++ ".json".

(** Both timings jobs completed; only the mochitest artifact exists. *)
Definition bothJobs : Network :=
  serve [ (pushUrl revision0, success pushBody);
          (jobsUrl "555",
           success (singlePage
             [ [Str "source-test-info-xpcshell-timings-rev"; Str "T1"; Str "completed"];
               [Str "source-test-info-mochitest-timings-rev"; Str "T2"; Str "completed"] ]));
          (artifactUrl "T2" mochitestFile, success (Obj [("tests", Arr [])])) ].

(** The xpcshell timings job is still running. *)
Definition mochitestOnlyRows : list (list val) :=
  [ [Str "source-test-info-xpcshell-timings-rev"; Str "T1"; Str "running"];
    [Str "source-test-info-mochitest-timings-rev"; Str "T2"; Str "completed"] ].

Definition mochitestOnly : Network :=
  serve [ (pushUrl revision0, success pushBody);
          (jobsUrl "555", success (singlePage mochitestOnlyRows));
          (artifactUrl "T2" mochitestFile, success (Obj [("tests", Arr [])])) ].

(** The same push, but the request for the mochitest artifact does not get
    through. *)
Definition artifactUnreachable : Network :=
  serve [ (pushUrl revision0, success pushBody);
          (jobsUrl "555", success (singlePage mochitestOnlyRows));
          (artifactUrl "T2" mochitestFile,
           NetworkFailure "NetworkError when attempting to fetch resource.") ].

(** A listing whose rows have no [state] column. *)
Definition statelessPage : val :=
  Obj [ ("job_property_names", Arr [Str "job_type_name"; Str "task_id"]);
        ("next", Null);
        ("results", Arr (map Arr someRows)) ].

Definition stateless : Network :=
  serve [ (pushUrl revision0, success pushBody);
          (jobsUrl "555", success statelessPage) ].

(** The index has the generic xpcshell file. *)
Definition indexWithXpcshell : Network :=
  serve [ (indexUrl "mozilla-central" "xpcshell" "index.json",
           success (Obj [("tests", Arr [])])) ].

(** One completed xpcshell timings job, whose artifact exists. *)
Definition xpcshellJob : Network :=
  serve [ (pushUrl revision0, success pushBody);
          (jobsUrl "555",
           success (singlePage
             [ [Str "foo-xpcshell-timings-rev"; Str "T1"; Str "completed"] ]));
          (artifactUrl "T1" xpcshellFile, success (Obj [("tests", Arr [])])) ].

(** A page opened from disk: the xpcshell file cannot be read, the
    mochitest file can. *)
Definition localPage : Location := mkLocation "file:" "" None.

Definition localFiles : Network :=
  serve [ (localUrl "xpcshell-try-myfile.json", NetworkFailure "Failed to fetch");
          (localUrl "mochitest-try-myfile.json", success (Obj [("tests", Arr [])])) ].

(** ** More example networks *)

(** The index service cannot be reached. *)
Definition indexDown : Network :=
  fun _ _ => NetworkFailure "NetworkError when attempting to fetch resource.".

(** Local files: a plain xpcshell file is missing (404). *)
Definition localMissing : Network :=
  serve [ (localUrl "xpcshell-components.json", notFound) ].

(** Local files: the requested file is there. *)
Definition localPresent : Network :=
  serve [ (localUrl "xpcshell-components.json", success (Obj [("tests", Arr [])])) ].


(** Treeherder knows no push for the revision. *)
Definition noPushFound : Network :=
  serve [ (pushUrl revision0, success (Obj [("results", Arr [])])) ].

(** The push is found, but the job listing answers 200 with the JSON value
    [null]. *)
Definition nullListing : Network :=
  serve [ (pushUrl revision0, success pushBody);
          (jobsUrl "555", success Null) ].

(** The job listing's only page names itself as the next one. *)
Definition loopingPage : val :=
  Obj [ ("job_property_names", Arr columns);
        ("next", Str (jobsUrl "555"));
        ("results", Arr (map Arr someRows)) ].

Definition loopingListing : Network :=
  serve [ (pushUrl revision0, success pushBody);
          (jobsUrl "555", success loopingPage) ].

(** The push lookup answers 200 with a body that is not JSON. *)
Definition pushNotJson : Network :=
  serve [ (pushUrl revision0, Responded (mkResponse 200 "OK" None)) ].

(** ** More vocabulary for job rows *)

(** The cell of an array row at index [i], as [job[i]] reads it. *)
Definition cellAt (cells : list val) (i : Z) : val :=
  if i <? 0 then Undefined else nth (Z.to_nat i) cells Undefined.

(** The filter of line 81, on an array row. *)
Definition passesFilter (jobTypeNameIndex taskIdIndex stateIndex : Z)
    (cells : list val) : bool :=
  is_string (cellAt cells stateIndex) "completed" &&
  truthy (cellAt cells jobTypeNameIndex) &&
  truthy (cellAt cells taskIdIndex).

(** [v] is [null], or the truthy task id of a completed job of [allJobs]
    whose type name is a string ending with [marker]. *)
Definition recordedFrom (allJobs : list val) (jobTypeNameIndex taskIdIndex stateIndex : Z)
    (marker : string) (v : val) : Prop :=
  v = Null \/
  exists job jobName,
    In job allJobs /\
    at_index job stateIndex = value (Str "completed") /\
    at_index job jobTypeNameIndex = value (Str jobName) /\
    endsWith jobName marker = true /\
    at_index job taskIdIndex = value v /\
    truthy v = true.

(** A listing whose first page carries no property names. *)
Definition bareFirstPage : val :=
  Obj [ ("next", Str page2Url);
        ("results", Arr (map Arr (firstn 2 someRows))) ].

Definition namesOnSecondPage : Network :=
  serve [ (pushUrl revision0, success pushBody);
          (jobsUrl "555", success bareFirstPage);
          (page2Url, success page2) ].

(** The public demo page. *)
Definition demoPage : Location := mkLocation "https:" "fqueze.github.io" None.

(** * Properties *)

(** ** Strings *)

Lemma startsWith_app (p t : string) : startsWith (p ++ t) p = true.
Proof.
  induction p as [|a p IH]; simpl.
  - reflexivity.
  - rewrite Ascii.eqb_refl. exact IH.
Qed.

Lemma startsWith_inv (p s : string) :
  startsWith s p = true -> exists t, s = p ++ t.
Proof.
  revert s. induction p as [|a p IH]; intros s H; simpl in H.
  - exists s. reflexivity.
  - destruct s as [|b s]; [discriminate|].
    apply andb_true_iff in H. destruct H as [Hab Hs].
    apply Ascii.eqb_eq in Hab. subst b.
    destruct (IH _ Hs) as [t ->]. exists t. reflexivity.
Qed.

(** [startsWith] decides "[p] followed by something". *)
Lemma startsWith_iff (s p : string) :
  startsWith s p = true <-> exists t, s = p ++ t.
Proof.
  split.
  - apply startsWith_inv.
  - intros [t ->]. apply startsWith_app.
Qed.

Lemma skip_app (p t : string) : skip (String.length p) (p ++ t) = t.
Proof. induction p as [|a p IH]; simpl; [reflexivity | exact IH]. Qed.

(** Replacing a prefix. *)
Lemma replace_prefix (p r t : string) : replace (p ++ t) p r = r ++ t.
Proof.
  destruct p as [|a p].
  - simpl. destruct t; reflexivity.
  - cbn [append replace].
    change (String a (p ++ t)) with (String a p ++ t).
    rewrite startsWith_app, skip_app. reflexivity.
Qed.

Lemma literal_iff (p s rest : string) : literal p s = Some rest <-> s = p ++ rest.
Proof.
  unfold literal. split.
  - destruct (startsWith s p) eqn:E; [|discriminate].
    intros [= <-]. apply startsWith_inv in E. destruct E as [t ->].
    rewrite skip_app. reflexivity.
  - intros ->. rewrite startsWith_app, skip_app. reflexivity.
Qed.

(** [endsWith] decides "something followed by [t]". *)
Lemma endsWith_iff (s t : string) : endsWith s t = true <-> exists p, s = p ++ t.
Proof.
  split.
  - induction s as [|a s IH]; cbn [endsWith]; intros H.
    + rewrite orb_false_r in H. apply String.eqb_eq in H. subst t.
      exists "". reflexivity.
    + apply orb_true_iff in H. destruct H as [H|H].
      * apply String.eqb_eq in H. subst t. exists "". reflexivity.
      * destruct (IH H) as [p ->]. exists (String a p). reflexivity.
  - intros [p ->]. induction p as [|a p IH].
    + change ("" ++ t) with t.
      destruct t; cbn [endsWith]; rewrite String.eqb_refl; reflexivity.
    + change (String a p ++ t) with (String a (p ++ t)).
      cbn [endsWith]. rewrite IH. apply orb_true_r.
Qed.

(** No job-type name ends with both markers. *)
Lemma endsWith_markers_disjoint (s : string) :
  endsWith s "xpcshell-timings-rev" = true ->
  endsWith s "mochitest-timings-rev" = false.
Proof.
  induction s as [|a s IH]; intros H.
  - discriminate.
  - cbn [endsWith] in H |- *.
    apply orb_true_iff in H. destruct H as [H|H].
    + apply String.eqb_eq in H. injection H as -> ->. reflexivity.
    + rewrite (IH H), orb_false_r.
      apply String.eqb_neq. intros E. injection E as -> ->.
      vm_compute in H. discriminate.
Qed.

(** ** The try-revision pattern *)

Lemma hexRun_iff (n : nat) (s m rest : string) :
  hexRun n s = Some (m, rest) <->
  s = m ++ rest /\ String.length m = n /\ allHexLower m = true.
Proof.
  revert s m rest. induction n as [|n IH]; intros s m rest; simpl.
  - split.
    + intros [= <- <-]. auto.
    + intros (-> & Hl & _). destruct m; [reflexivity | discriminate].
  - split.
    + destruct s as [|c s]; [discriminate|].
      destruct (hexLower c) eqn:Hc; [|discriminate].
      destruct (hexRun n s) as [[m' rest']|] eqn:E; [|discriminate].
      intros [= <- <-]. apply IH in E. destruct E as (-> & <- & Hm).
      simpl. rewrite Hc, Hm. auto.
    + intros (-> & Hl & Hm). destruct m as [|c m]; [discriminate|].
      simpl in *. apply andb_true_iff in Hm. destruct Hm as [Hc Hm].
      rewrite Hc. injection Hl as Hl.
      assert (E : hexRun n (m ++ rest) = Some (m, rest)) by (apply IH; auto).
      rewrite E. reflexivity.
Qed.

(** The matcher accepts exactly the file names of the data model and
    captures the harness and the revision. *)
Lemma tryMatch_iff (filename harness revision : string) :
  tryMatch filename = Some (harness, revision) <->
  TryRevisionFilename filename harness revision.
Proof.
  unfold tryMatch, TryRevisionFilename. split.
  - destruct (literal "xpcshell" filename) as [rest|] eqn:E1.
    + apply literal_iff in E1. subst filename.
      destruct (literal "-try-" rest) as [rest'|] eqn:E2; [|discriminate].
      apply literal_iff in E2. subst rest.
      destruct (hexRun 40 rest') as [[rev rest]|] eqn:E3; [|discriminate].
      apply hexRun_iff in E3. destruct E3 as (-> & Hl & Hh).
      destruct (String.eqb rest ".json") eqn:E4; [|discriminate].
      apply String.eqb_eq in E4. subst rest.
      intros [= <- <-]. auto.
    + destruct (literal "mochitest" filename) as [rest|] eqn:E1'; [|discriminate].
      apply literal_iff in E1'. subst filename.
      destruct (literal "-try-" rest) as [rest'|] eqn:E2; [|discriminate].
      apply literal_iff in E2. subst rest.
      destruct (hexRun 40 rest') as [[rev rest]|] eqn:E3; [|discriminate].
      apply hexRun_iff in E3. destruct E3 as (-> & Hl & Hh).
      destruct (String.eqb rest ".json") eqn:E4; [|discriminate].
      apply String.eqb_eq in E4. subst rest.
      intros [= <- <-]. auto.
  - intros (Hh & Hl & Hx & ->).
    assert (E3 : hexRun 40 (revision ++ ".json") = Some (revision, ".json"))
      by (apply hexRun_iff; auto).
    destruct Hh as [-> | ->].
    + rewrite (proj2 (literal_iff "xpcshell" _ _) eq_refl). cbv beta match.
      rewrite (proj2 (literal_iff "-try-" _ _) eq_refl). cbv beta match.
      rewrite E3. reflexivity.
    + change (literal "xpcshell" ("mochitest" ++ "-try-" ++ revision ++ ".json"))
        with (@None string).
      cbv beta match.
      rewrite (proj2 (literal_iff "mochitest" _ _) eq_refl). cbv beta match.
      rewrite (proj2 (literal_iff "-try-" _ _) eq_refl). cbv beta match.
      rewrite E3. reflexivity.
Qed.

Lemma tryMatch_none (filename : string) :
  tryMatch filename = None <->
  ~ exists harness revision, TryRevisionFilename filename harness revision.
Proof.
  split.
  - intros E (hn & rev & H). apply tryMatch_iff in H. congruence.
  - intros H. destruct (tryMatch filename) as [[hn rev]|] eqn:E; [|reflexivity].
    exfalso. apply H. exists hn, rev. apply tryMatch_iff. exact E.
Qed.

(** ** Asynchronous code only adds requests *)

Lemma extends_refl (h : history) : extends h h.
Proof. exists []. symmetry. apply app_nil_r. Qed.

Lemma extends_trans (h1 h2 h3 : history) :
  extends h1 h2 -> extends h2 h3 -> extends h1 h3.
Proof.
  intros [r1 ->] [r2 ->]. exists (r1 ++ r2)%list. symmetry. apply app_assoc.
Qed.

Lemma lift_outcome {A} (c : checked A) (h : history) : lift c h = (outcome c, h).
Proof. destruct c; reflexivity. Qed.

Lemma monotone_ret {A} (a : A) : monotone (ret a).
Proof. intros h. apply extends_refl. Qed.

Lemma monotone_throw {A} (e : exn) : monotone (@throw A e).
Proof. intros h. apply extends_refl. Qed.

Lemma monotone_pending {A} : monotone (@pending A).
Proof. intros h. apply extends_refl. Qed.

Lemma monotone_lift {A} (c : checked A) : monotone (lift c).
Proof. intros h. rewrite lift_outcome. apply extends_refl. Qed.

Lemma monotone_bind {A B} (m : M A) (k : A -> M B) :
  monotone m -> (forall a, monotone (k a)) -> monotone (bind m k).
Proof.
  intros Hm Hk h. unfold bind. specialize (Hm h).
  destruct (m h) as [[a|e|] h']; simpl in *; auto.
  eapply extends_trans; [exact Hm | apply Hk].
Qed.

Lemma monotone_try_catch {A} (m : M A) (handler : exn -> M A) :
  monotone m -> (forall e, monotone (handler e)) -> monotone (try_catch m handler).
Proof.
  intros Hm Hk h. unfold try_catch. specialize (Hm h).
  destruct (m h) as [[a|e|] h']; simpl in *; auto.
  eapply extends_trans; [exact Hm | apply Hk].
Qed.

Lemma monotone_if {A} (b : bool) (m1 m2 : M A) :
  monotone m1 -> monotone m2 -> monotone (if b then m1 else m2).
Proof. destruct b; auto. Qed.

Lemma monotone_fetch (net : Network) (url : string) : monotone (fetch net url).
Proof.
  intros h. unfold fetch. exists [url].
  destruct (net h url); reflexivity.
Qed.

Lemma monotone_json (r : Response) : monotone (json r).
Proof. unfold json. destruct (body r); [apply monotone_ret | apply monotone_throw]. Qed.

Create HintDb mono.

#[local] Hint Resolve monotone_ret monotone_throw monotone_pending monotone_lift
  monotone_fetch monotone_json : mono.

Ltac mono :=
  repeat match goal with
    | |- monotone (bind _ _) => apply monotone_bind; [|intros ?]
    | |- monotone (try_catch _ _) => apply monotone_try_catch; [|intros ?]
    | |- monotone (if _ then _ else _) => apply monotone_if
    | |- monotone (match ?x with _ => _ end) => destruct x
    | |- monotone (let _ := _ in _) => cbv zeta
    | |- monotone _ => solve [auto with mono]
    end.

Lemma monotone_fetchJson (net : Network) (url : val) : monotone (fetchJson net url).
Proof. unfold fetchJson. mono. Qed.

#[local] Hint Resolve monotone_fetchJson : mono.

Lemma monotone_collectJobs (net : Network) (fuel : nat) (pushId : val)
    (allJobs : list val) (propertyNames url : val) :
  monotone (collectJobs net fuel pushId allJobs propertyNames url).
Proof.
  revert allJobs propertyNames url.
  induction fuel as [|fuel IH]; intros allJobs propertyNames url; simpl.
  - destruct (truthy url); auto with mono.
  - destruct (truthy url); [|auto with mono]. mono.
Qed.

#[local] Hint Resolve monotone_collectJobs : mono.

Lemma monotone_findTimingsJobsForRevision (net : Network) (fuel : nat)
    (revision : string) :
  monotone (findTimingsJobsForRevision net fuel revision).
Proof. unfold findTimingsJobsForRevision. mono. Qed.

#[local] Hint Resolve monotone_findTimingsJobsForRevision : mono.

Lemma monotone_fetchTryRevision (net : Network) (fuel : nat)
    (filename requestedHarness revision : string) :
  monotone (fetchTryRevision net fuel filename requestedHarness revision).
Proof. unfold fetchTryRevision. mono. Qed.

Lemma monotone_fetchRemote (net : Network) (location : Location) (filename : string) :
  monotone (fetchRemote net location filename).
Proof. unfold fetchRemote, fetchFromCI. mono. Qed.

Lemma monotone_fetchLocal (net : Network) (filename : string) :
  monotone (fetchLocal net filename).
Proof. unfold fetchLocal. mono. Qed.

(** [fetchData] never forgets a request, whichever branch it takes. *)
Lemma monotone_fetchData (net : Network) (location : Location) (fuel : nat)
    (filename : string) :
  monotone (fetchData net location fuel filename).
Proof.
  unfold fetchData.
  destruct (String.eqb (protocol location) "https:").
  - destruct (tryMatch filename) as [[hn rev]|].
    + apply monotone_fetchTryRevision.
    + apply monotone_fetchRemote.
  - apply monotone_fetchLocal.
Qed.

(** *** The first request of a call *)

Lemma begins_fetch (net : Network) (url : string) : begins url (fetch net url).
Proof.
  intros h. exists []. unfold fetch. destruct (net h url); reflexivity.
Qed.

Lemma begins_bind {A B} (url : string) (m : M A) (k : A -> M B) :
  begins url m -> (forall a, monotone (k a)) -> begins url (bind m k).
Proof.
  intros Hm Hk h. unfold bind. destruct (Hm h) as [rest E].
  destruct (m h) as [[a|e|] h']; simpl in E; subst h'; simpl.
  - destruct (Hk a (h ++ url :: rest)%list) as [rest' ->].
    exists (rest ++ rest')%list.
    rewrite <- app_assoc. reflexivity.
  - exists rest. reflexivity.
  - exists rest. reflexivity.
Qed.

Lemma begins_try_catch {A} (url : string) (m : M A) (handler : exn -> M A) :
  begins url m -> (forall e, monotone (handler e)) -> begins url (try_catch m handler).
Proof.
  intros Hm Hk h. unfold try_catch. destruct (Hm h) as [rest E].
  destruct (m h) as [[a|e|] h']; simpl in E; subst h'; simpl.
  - exists rest. reflexivity.
  - destruct (Hk e (h ++ url :: rest)%list) as [rest' ->].
    exists (rest ++ rest')%list.
    rewrite <- app_assoc. reflexivity.
  - exists rest. reflexivity.
Qed.

Lemma begins_fetchJson (net : Network) (url : string) :
  begins url (fetchJson net (Str url)).
Proof.
  intros h.
  assert (E : fetchJson net (Str url) h =
              bind (fetch net url)
                (fun response => if negb (ok response) then ret Null else json response) h)
    by reflexivity.
  rewrite E. apply begins_bind; [apply begins_fetch|].
  intros r. mono.
Qed.

(** The job locator starts with the push lookup. *)
Lemma begins_findTimingsJobsForRevision (net : Network) (fuel : nat) (revision : string) :
  begins (pushUrl revision) (findTimingsJobsForRevision net fuel revision).
Proof.
  unfold findTimingsJobsForRevision.
  apply begins_try_catch; [|intros e; mono].
  apply begins_bind; [apply begins_fetchJson|].
  intros pushResult. mono.
Qed.

Lemma begins_fetchTryRevision (net : Network) (fuel : nat)
    (filename requestedHarness revision : string) :
  begins (pushUrl revision)
    (fetchTryRevision net fuel filename requestedHarness revision).
Proof.
  unfold fetchTryRevision.
  apply begins_bind; [|intros r; mono].
  apply begins_try_catch; [|intros e; mono].
  apply begins_bind; [apply begins_findTimingsJobsForRevision|].
  intros t. mono.
Qed.

Lemma begins_fetchRemote (net : Network) (location : Location) (filename : string) :
  begins (indexUrl (repositoryOf location) (detectHarness location filename) filename)
    (fetchRemote net location filename).
Proof.
  unfold fetchRemote. cbv zeta.
  apply begins_bind; [apply begins_fetch|].
  intros r. unfold fetchFromCI. mono.
Qed.

(** ** Fuel

    The bound on the pagination loop is an artifact of the embedding: a
    call that has settled with some fuel settles the same way with more. *)

Lemma agrees_refl {A} (m : M A) : agrees m m.
Proof. intros h _. reflexivity. Qed.

Lemma agrees_bind {A B} (m m' : M A) (k k' : A -> M B) :
  agrees m m' -> (forall a, agrees (k a) (k' a)) -> agrees (bind m k) (bind m' k').
Proof.
  intros Hm Hk h Hs. unfold bind in *.
  assert (E : m' h = m h).
  { apply Hm. intros F. destruct (m h) as [[a|e|] h1]; simpl in F; try discriminate.
    apply Hs. reflexivity. }
  rewrite E. destruct (m h) as [[a|e|] h1]; try reflexivity.
  apply Hk. exact Hs.
Qed.

Lemma agrees_try_catch {A} (m m' : M A) (handler : exn -> M A) :
  agrees m m' -> agrees (try_catch m handler) (try_catch m' handler).
Proof.
  intros Hm h Hs. unfold try_catch in *.
  assert (E : m' h = m h).
  { apply Hm. intros F. destruct (m h) as [[a|e|] h1]; simpl in F; try discriminate.
    apply Hs. reflexivity. }
  rewrite E. reflexivity.
Qed.

Lemma agrees_if {A} (b : bool) (m1 m1' m2 m2' : M A) :
  agrees m1 m1' -> agrees m2 m2' ->
  agrees (if b then m1 else m2) (if b then m1' else m2').
Proof. destruct b; auto. Qed.

Lemma collectJobs_fuel (net : Network) (fuel fuel' : nat) (pushId : val)
    (allJobs : list val) (propertyNames url : val) :
  (fuel <= fuel')%nat ->
  agrees (collectJobs net fuel pushId allJobs propertyNames url)
         (collectJobs net fuel' pushId allJobs propertyNames url).
Proof.
  revert fuel' allJobs propertyNames url.
  induction fuel as [|fuel IH]; intros fuel' allJobs propertyNames url Hle.
  - intros h Hs. destruct fuel'; cbn [collectJobs] in *; [reflexivity|].
    destruct (truthy url); [|reflexivity].
    exfalso. apply Hs. reflexivity.
  - destruct fuel' as [|fuel']; [lia|].
    cbn [collectJobs]. apply agrees_if; [|apply agrees_refl].
    apply agrees_bind; [apply agrees_refl|]. intros result.
    apply agrees_if; [apply agrees_refl|].
    apply agrees_bind; [apply agrees_refl|]. intros results.
    apply agrees_bind; [apply agrees_refl|]. intros len.
    apply agrees_bind; [apply agrees_refl|]. intros names.
    apply agrees_bind; [apply agrees_refl|]. intros next.
    apply IH. lia.
Qed.

Lemma findTimingsJobsForRevision_fuel (net : Network) (fuel fuel' : nat)
    (revision : string) :
  (fuel <= fuel')%nat ->
  agrees (findTimingsJobsForRevision net fuel revision)
         (findTimingsJobsForRevision net fuel' revision).
Proof.
  intros Hle. unfold findTimingsJobsForRevision.
  apply agrees_try_catch.
  apply agrees_bind; [apply agrees_refl|]. intros pushResult.
  apply agrees_bind; [apply agrees_refl|]. intros missing.
  apply agrees_if; [apply agrees_refl|].
  apply agrees_bind; [apply agrees_refl|]. intros results.
  apply agrees_bind; [apply agrees_refl|]. intros first.
  apply agrees_bind; [apply agrees_refl|]. intros pushId.
  apply agrees_bind; [apply agrees_refl|]. intros shown.
  apply agrees_bind; [|intros collected; apply agrees_refl].
  apply collectJobs_fuel. exact Hle.
Qed.

(** Once [fetchData] has settled, more fuel changes nothing. *)
Lemma fetchData_fuel (net : Network) (location : Location) (fuel fuel' : nat)
    (filename : string) :
  (fuel <= fuel')%nat ->
  agrees (fetchData net location fuel filename) (fetchData net location fuel' filename).
Proof.
  intros Hle. unfold fetchData.
  apply agrees_if; [|apply agrees_refl].
  destruct (tryMatch filename) as [[requestedHarness revision]|]; [|apply agrees_refl].
  unfold fetchTryRevision.
  apply agrees_bind; [|intros r; apply agrees_refl].
  apply agrees_try_catch.
  apply agrees_bind; [|intros jobs; apply agrees_refl].
  apply findTimingsJobsForRevision_fuel. exact Hle.
Qed.

(** ** The JSON fetcher *)

(** C7. [fetchJson] returns [null] for a response whose status is outside
    200-299, the parsed body for a 2xx response with a JSON body, and throws
    the parse error for a 2xx response whose body is not JSON. *)
Theorem fetchJson_by_status (net : Network) (h : history) (url : string) (r : Response) :
  net h url = Responded r ->
  (status r < 200 \/ 299 < status r ->
     fetchJson net (Str url) h = (Normal Null, (h ++ [url])%list)) /\
  (200 <= status r <= 299 ->
     forall v, body r = Some v ->
     fetchJson net (Str url) h = (Normal v, (h ++ [url])%list)) /\
  (200 <= status r <= 299 ->
     body r = None ->
     exists msg, fetchJson net (Str url) h = (Thrown (SyntaxError msg), (h ++ [url])%list)).
Proof.
  intros Hnet.
  assert (E : fetchJson net (Str url) h =
              (if negb (ok r) then ret Null else json r) (h ++ [url])%list).
  { unfold fetchJson, bind, lift, fetch; simpl. rewrite Hnet. reflexivity. }
  rewrite E. unfold ok, json. repeat split.
  - intros Hs.
    assert (F : (200 <=? status r) && (status r <=? 299) = false).
    { apply andb_false_iff. destruct Hs; [left | right]; apply Z.leb_gt; lia. }
    rewrite F. reflexivity.
  - intros [Hlo Hhi] v Hv.
    apply Z.leb_le in Hlo, Hhi. rewrite Hlo, Hhi, Hv. reflexivity.
  - intros [Hlo Hhi] Hv.
    apply Z.leb_le in Hlo, Hhi. rewrite Hlo, Hhi, Hv. eexists. reflexivity.
Qed.

Lemma fetchJson_by_status_witness :
  fetchJson jsonServer (Str "https://example.org/missing.json") [] =
    (Normal Null, ["https://example.org/missing.json"]) /\
  fetchJson jsonServer (Str "https://example.org/data.json") [] =
    (Normal (Obj [("tests", Arr [])]), ["https://example.org/data.json"]) /\
  exists msg,
    fetchJson jsonServer (Str "https://example.org/broken.json") [] =
      (Thrown (SyntaxError msg), ["https://example.org/broken.json"]).
Proof.
  split; [|split].
  - apply (proj1 (fetchJson_by_status jsonServer [] "https://example.org/missing.json"
                    _ eq_refl)).
    right. simpl. lia.
  - apply (proj1 (proj2 (fetchJson_by_status jsonServer [] "https://example.org/data.json"
                           _ eq_refl))).
    + simpl. lia.
    + reflexivity.
  - apply (proj2 (proj2 (fetchJson_by_status jsonServer [] "https://example.org/broken.json"
                           _ eq_refl))).
    + simpl. lia.
    + reflexivity.
Defined.

(** ** Harness selection *)

(** C8. A file name starting with [mochitest-] selects mochitest;
    [index.json] selects the page parameter when it is present and not
    empty, and xpcshell otherwise; any other file name selects xpcshell. *)
Theorem detectHarness_cases (location : Location) (filename : string) :
  ((exists rest, filename = "mochitest-" ++ rest) ->
     detectHarness location filename = "mochitest") /\
  (filename = "index.json" ->
     (forall k, kind location = Some k -> k <> "" ->
        detectHarness location filename = k) /\
     (kind location = None \/ kind location = Some "" ->
        detectHarness location filename = "xpcshell")) /\
  (~ (exists rest, filename = "mochitest-" ++ rest) -> filename <> "index.json" ->
     detectHarness location filename = "xpcshell").
Proof.
  unfold detectHarness, getHarnessType. repeat split.
  - intros H. apply startsWith_iff in H. rewrite H. reflexivity.
  - intros k Hk Hne. subst filename. simpl. rewrite Hk.
    apply String.eqb_neq in Hne. rewrite Hne. reflexivity.
  - intros Hk. subst filename. simpl.
    destruct Hk as [-> | ->]; reflexivity.
  - intros Hm Hi.
    destruct (startsWith filename "mochitest-") eqn:E.
    + exfalso. apply Hm. apply startsWith_iff. exact E.
    + apply String.eqb_neq in Hi. rewrite Hi. reflexivity.
Qed.

Lemma detectHarness_cases_witness :
  detectHarness dashboard "mochitest-components.json" = "mochitest" /\
  detectHarness (mkLocation "https:" "tests.firefox.dev" (Some "mochitest")) "index.json"
    = "mochitest" /\
  detectHarness dashboard "index.json" = "xpcshell" /\
  detectHarness dashboard "xpcshell-components.json" = "xpcshell".
Proof.
  split; [|split; [|split]].
  - apply (proj1 (detectHarness_cases dashboard "mochitest-components.json")).
    exists "components.json". reflexivity.
  - apply (proj1 (proj1 (proj2 (detectHarness_cases
             (mkLocation "https:" "tests.firefox.dev" (Some "mochitest")) "index.json"))
             eq_refl)).
    + reflexivity.
    + discriminate.
  - apply (proj2 (proj1 (proj2 (detectHarness_cases dashboard "index.json")) eq_refl)).
    left. reflexivity.
  - apply (proj2 (proj2 (detectHarness_cases dashboard "xpcshell-components.json"))).
    + intros [rest H]. discriminate.
    + discriminate.
Defined.

(** C9, as the code has it. The selected harness is ["xpcshell"],
    ["mochitest"], or, for [index.json] only, the page parameter itself,
    whatever non-empty string it is; the selection has no error case. *)
Theorem detectHarness_range (location : Location) (filename : string) :
  detectHarness location filename = "xpcshell" \/
  detectHarness location filename = "mochitest" \/
  (filename = "index.json" /\
   kind location = Some (detectHarness location filename) /\
   detectHarness location filename <> "").
Proof.
  unfold detectHarness, getHarnessType.
  destruct (startsWith filename "mochitest-"); [auto|].
  destruct (String.eqb filename "index.json") eqn:E; [|auto].
  apply String.eqb_eq in E.
  destruct (kind location) as [k|]; [|auto].
  destruct (String.eqb k "") eqn:Ek; [auto|].
  apply String.eqb_neq in Ek. auto.
Qed.

(** C9, as stated, fails: with [?kind=foo] the harness of [index.json] is
    ["foo"]. *)
Lemma detectHarness_not_two_valued :
  detectHarness (mkLocation "https:" "tests.firefox.dev" (Some "foo")) "index.json" = "foo" /\
  ~ (forall location filename,
       detectHarness location filename = "xpcshell" \/
       detectHarness location filename = "mochitest").
Proof.
  split; [reflexivity|].
  intros H.
  destruct (H (mkLocation "https:" "tests.firefox.dev" (Some "foo")) "index.json")
    as [E|E]; discriminate E.
Qed.

(** ** Remote files that are not try-revision files *)

Lemma fetchData_remote (net : Network) (location : Location) (fuel : nat)
    (filename : string) (h : history) :
  protocol location = "https:" ->
  tryMatch filename = None ->
  fetchData net location fuel filename h = fetchRemote net location filename h.
Proof. intros Hp Hm. unfold fetchData. rewrite Hp, Hm. reflexivity. Qed.

(** What [fetchRemote] does once the index has answered. *)
Lemma fetchRemote_after_response (net : Network) (location : Location)
    (filename : string) (h : history) (r : Response) :
  net h (indexUrl (repositoryOf location) (detectHarness location filename) filename)
    = Responded r ->
  fetchRemote net location filename h =
    (if ok r then ret r
     else if startsWith filename "xpcshell-try-"
          then fetch net (indexUrl (repositoryOf location) "mochitest"
                            (replace filename "xpcshell-" "mochitest-"))
          else ret r)
      (h ++ [indexUrl (repositoryOf location) (detectHarness location filename) filename])%list.
Proof.
  intros Hnet. unfold fetchRemote, fetchFromCI, bind, fetch. cbv zeta.
  fold (repositoryOf location). rewrite Hnet. reflexivity.
Qed.

(** The retry: a failed answer for an [xpcshell-try-] file name. *)
Lemma fetchRemote_retry (net : Network) (location : Location) (rest : string)
    (h : history) (r : Response) :
  net h (indexUrl (repositoryOf location)
           (detectHarness location ("xpcshell-try-" ++ rest)) ("xpcshell-try-" ++ rest))
    = Responded r ->
  ok r = false ->
  fetchRemote net location ("xpcshell-try-" ++ rest) h =
    fetch net (indexUrl (repositoryOf location) "mochitest" ("mochitest-try-" ++ rest))
      (h ++ [indexUrl (repositoryOf location)
               (detectHarness location ("xpcshell-try-" ++ rest))
               ("xpcshell-try-" ++ rest)])%list.
Proof.
  intros Hnet Hok.
  rewrite (fetchRemote_after_response net location _ h r Hnet).
  rewrite Hok, startsWith_app.
  change ("xpcshell-try-" ++ rest) with ("xpcshell-" ++ ("try-" ++ rest)).
  rewrite replace_prefix. reflexivity.
Qed.

(** No retry: the answer is ok, or the file name is of another shape. *)
Lemma fetchRemote_keep (net : Network) (location : Location) (filename : string)
    (h : history) (r : Response) :
  net h (indexUrl (repositoryOf location) (detectHarness location filename) filename)
    = Responded r ->
  ok r = true \/ ~ (exists rest, filename = "xpcshell-try-" ++ rest) ->
  fetchRemote net location filename h =
    (Normal r,
     (h ++ [indexUrl (repositoryOf location) (detectHarness location filename) filename])%list).
Proof.
  intros Hnet H.
  rewrite (fetchRemote_after_response net location filename h r Hnet).
  destruct H as [Hok | Hno].
  - rewrite Hok. reflexivity.
  - destruct (ok r); [reflexivity|].
    destruct (startsWith filename "xpcshell-try-") eqn:E; [|reflexivity].
    exfalso. apply Hno. apply startsWith_iff. exact E.
Qed.

Lemma app_one_neq {A} (l : list A) (x : A) : (l ++ [x])%list <> l.
Proof.
  intros E. apply (f_equal (@List.length A)) in E.
  rewrite length_app in E. simpl in E. lia.
Qed.

(** C6. Once the index has answered the first request, [fetchData] asks for
    the mochitest-renamed file under the mochitest harness if and only if
    the answer is not ok and the file name starts with [xpcshell-try-];
    otherwise the first response is returned and no other request is made. *)
Theorem fetchData_legacy_fallback (net : Network) (location : Location) (fuel : nat)
    (filename : string) (h : history) (r : Response) :
  protocol location = "https:" ->
  tryMatch filename = None ->
  net h (indexUrl (repositoryOf location) (detectHarness location filename) filename)
    = Responded r ->
  let h1 :=
    (h ++ [indexUrl (repositoryOf location) (detectHarness location filename) filename])%list in
  (forall rest, ok r = false -> filename = "xpcshell-try-" ++ rest ->
     fetchData net location fuel filename h =
       fetch net (indexUrl (repositoryOf location) "mochitest" ("mochitest-try-" ++ rest)) h1) /\
  (ok r = true \/ ~ (exists rest, filename = "xpcshell-try-" ++ rest) ->
     fetchData net location fuel filename h = (Normal r, h1)) /\
  (snd (fetchData net location fuel filename h) <> h1 <->
     ok r = false /\ exists rest, filename = "xpcshell-try-" ++ rest).
Proof.
  intros Hp Hm Hnet h1.
  rewrite (fetchData_remote net location fuel filename h Hp Hm).
  split; [|split; [|split]].
  - intros rest Hok ->. exact (fetchRemote_retry net location rest h r Hnet Hok).
  - intros H. exact (fetchRemote_keep net location filename h r Hnet H).
  - intros Hneq. destruct (ok r) eqn:Hok.
    + exfalso. apply Hneq.
      rewrite (fetchRemote_keep net location filename h r Hnet) by (left; exact Hok).
      reflexivity.
    + split; [reflexivity|].
      destruct (startsWith filename "xpcshell-try-") eqn:E.
      * apply startsWith_iff. exact E.
      * exfalso. apply Hneq.
        rewrite (fetchRemote_keep net location filename h r Hnet); [reflexivity|].
        right. intros Hex. apply startsWith_iff in Hex. congruence.
  - intros [Hok [rest ->]].
    rewrite (fetchRemote_retry net location rest h r Hnet Hok). fold h1.
    unfold fetch. destruct (net h1 _); simpl; apply app_one_neq.
Qed.

Lemma fetchData_legacy_fallback_witness :
  fetchData indexServer dashboard 0 "xpcshell-try-abc.json" [] =
    (Normal (mkResponse 200 "OK" (Some (Obj [("tests", Arr [])]))),
     [indexUrl "mozilla-central" "xpcshell" "xpcshell-try-abc.json";
      indexUrl "mozilla-central" "mochitest" "mochitest-try-abc.json"]) /\
  fetchData indexServer dashboard 0 "xpcshell-foo.json" [] =
    (Normal (mkResponse 404 "Not Found" None),
     [indexUrl "mozilla-central" "xpcshell" "xpcshell-foo.json"]).
Proof.
  split.
  - apply (proj1 (fetchData_legacy_fallback indexServer dashboard 0
                    "xpcshell-try-abc.json" [] _ eq_refl eq_refl eq_refl) "abc.json");
      reflexivity.
  - apply (proj1 (proj2 (fetchData_legacy_fallback indexServer dashboard 0
                           "xpcshell-foo.json" [] _ eq_refl eq_refl eq_refl))).
    right. intros [rest H]. discriminate H.
Defined.

(** ** Which file names take the try-revision path *)

(** C3. On an https page [fetchData] runs the job locator, whose first
    request is the push lookup, exactly for the file names
    [(xpcshell|mochitest)-try-<40 lowercase hex>.json]; every other file
    name takes the index branch. [xpcshell-try-abc.json] is such a name,
    and a failed first answer sends it to the mochitest retry. *)
Theorem fetchData_try_revision_dispatch (net : Network) (location : Location)
    (fuel : nat) (filename : string) (h : history) :
  protocol location = "https:" ->
  (forall harness revision, TryRevisionFilename filename harness revision ->
     fetchData net location fuel filename h =
       fetchTryRevision net fuel filename harness revision h /\
     exists rest,
       snd (fetchData net location fuel filename h) = (h ++ pushUrl revision :: rest)%list) /\
  (~ (exists harness revision, TryRevisionFilename filename harness revision) ->
     fetchData net location fuel filename h = fetchRemote net location filename h /\
     exists rest,
       snd (fetchData net location fuel filename h) =
         (h ++ indexUrl (repositoryOf location) (detectHarness location filename) filename
            :: rest)%list) /\
  ~ (exists harness revision, TryRevisionFilename "xpcshell-try-abc.json" harness revision) /\
  (forall r,
     net h (indexUrl (repositoryOf location) "xpcshell" "xpcshell-try-abc.json")
       = Responded r ->
     ok r = false ->
     fetchData net location fuel "xpcshell-try-abc.json" h =
       fetch net (indexUrl (repositoryOf location) "mochitest" "mochitest-try-abc.json")
         (h ++ [indexUrl (repositoryOf location) "xpcshell" "xpcshell-try-abc.json"])%list).
Proof.
  intros Hp.
  assert (Habc : tryMatch "xpcshell-try-abc.json" = None) by reflexivity.
  split; [|split; [|split]].
  - intros harness revision H. apply tryMatch_iff in H.
    assert (E : fetchData net location fuel filename h =
                fetchTryRevision net fuel filename harness revision h).
    { unfold fetchData. rewrite Hp, H. reflexivity. }
    split; [exact E|]. rewrite E. apply begins_fetchTryRevision.
  - intros H. apply tryMatch_none in H.
    rewrite (fetchData_remote net location fuel filename h Hp H).
    split; [reflexivity|]. apply begins_fetchRemote.
  - apply tryMatch_none. exact Habc.
  - intros r Hnet Hok.
    rewrite (fetchData_remote net location fuel "xpcshell-try-abc.json" h Hp Habc).
    exact (fetchRemote_retry net location "abc.json" h r Hnet Hok).
Qed.

Lemma fetchData_try_revision_dispatch_witness :
  (exists rest,
     snd (fetchData indexServer dashboard 3 ("xpcshell-try-" ++ revision0 ++ ".json") [])
     = pushUrl revision0 :: rest) /\
  (exists rest,
     snd (fetchData indexServer dashboard 3 "xpcshell-try-abc.json" [])
     = indexUrl "mozilla-central" "xpcshell" "xpcshell-try-abc.json" :: rest) /\
  fetchData indexServer dashboard 3 "xpcshell-try-abc.json" [] =
    (Normal (mkResponse 200 "OK" (Some (Obj [("tests", Arr [])]))),
     [indexUrl "mozilla-central" "xpcshell" "xpcshell-try-abc.json";
      indexUrl "mozilla-central" "mochitest" "mochitest-try-abc.json"]).
Proof.
  split; [|split].
  - apply (proj1 (fetchData_try_revision_dispatch indexServer dashboard 3
                    ("xpcshell-try-" ++ revision0 ++ ".json") [] eq_refl)
             "xpcshell" revision0).
    repeat split. left. reflexivity.
  - apply (proj1 (proj2 (fetchData_try_revision_dispatch indexServer dashboard 3
                           "xpcshell-try-abc.json" [] eq_refl))).
    apply (proj1 (proj2 (proj2 (fetchData_try_revision_dispatch indexServer dashboard 3
                                  "xpcshell-try-abc.json" [] eq_refl)))).
  - apply (proj2 (proj2 (proj2 (fetchData_try_revision_dispatch indexServer dashboard 3
                                  "xpcshell-try-abc.json" [] eq_refl)))
             (mkResponse 404 "Not Found" None)); reflexivity.
Defined.

(** ** The scan of the job rows *)

Lemma is_string_eq (v : val) (s : string) : is_string v s = true <-> v = Str s.
Proof.
  destruct v; simpl; split; try discriminate.
  - intros H. apply String.eqb_eq in H. congruence.
  - intros [= ->]. apply String.eqb_refl.
Qed.

Lemma nth_hd_skipn {A} (n : nat) (l : list A) (d : A) : nth n l d = hd d (skipn n l).
Proof.
  revert l. induction n as [|n IH]; intros [|x l]; simpl; auto.
Qed.

Lemma tl_skipn {A} (n : nat) (l : list A) : tl (skipn n l) = skipn (S n) l.
Proof.
  revert l. induction n as [|n IH]; intros l.
  - destruct l; reflexivity.
  - destruct l as [|x l]; [reflexivity|]. apply (IH l).
Qed.

(** Reading a row at the index [indexOf] computes is reading its column. *)
Lemma at_index_field_from (names : list val) (name : string) (cells : list val) (i : Z) :
  0 <= i ->
  at_index (Arr cells) (indexOfFrom names name i)
  = value (field names name (skipn (Z.to_nat i) cells)).
Proof.
  revert i. induction names as [|n names IH]; intros i Hi; simpl.
  - reflexivity.
  - destruct (is_string n name).
    + assert (E : (i <? 0) = false) by (apply Z.ltb_ge; exact Hi).
      rewrite E, nth_hd_skipn. reflexivity.
    + specialize (IH (i + 1)). simpl in IH. rewrite IH by lia.
      rewrite tl_skipn. replace (Z.to_nat (i + 1)) with (S (Z.to_nat i)) by lia.
      reflexivity.
Qed.

Lemma at_index_field (names : list val) (name : string) (cells : list val) :
  at_index (Arr cells) (indexOfFrom names name 0) = value (field names name cells).
Proof. apply (at_index_field_from names name cells 0). lia. Qed.

(** No row counts for both harnesses. *)
Lemma qualifies_disjoint (names : list val) (cells : list val) :
  qualifies names "xpcshell" cells = true -> qualifies names "mochitest" cells = false.
Proof.
  unfold qualifies. intros H.
  apply andb_true_iff in H. destruct H as [_ H].
  destruct (field names "job_type_name" cells); try discriminate.
  change ("xpcshell" ++ "-timings-rev") with "xpcshell-timings-rev" in H.
  change ("mochitest" ++ "-timings-rev") with "mochitest-timings-rev".
  rewrite (endsWith_markers_disjoint s H). apply andb_false_r.
Qed.

(** One iteration of the loop on a typed row. *)
Lemma scanJob_record (names : list val) (found : TimingsJobs) (cells : list val) :
  stringOrFalsy (field names "job_type_name" cells) = true ->
  scanJob (indexOfFrom names "job_type_name" 0) (indexOfFrom names "task_id" 0)
    (indexOfFrom names "state" 0) found (Arr cells)
  = value (record names found cells).
Proof.
  intros Hty. unfold scanJob.
  rewrite !at_index_field. unfold check_bind, value.
  unfold record, qualifies.
  change ("xpcshell" ++ "-timings-rev") with "xpcshell-timings-rev".
  change ("mochitest" ++ "-timings-rev") with "mochitest-timings-rev".
  destruct (is_string (field names "state" cells) "completed"); simpl; [|reflexivity].
  destruct (field names "job_type_name" cells) as [| |b|n|s|l|fs];
    simpl in *; try reflexivity; try discriminate.
  - destruct b; [discriminate | reflexivity].
  - destruct (n =? 0); [reflexivity | discriminate].
  - destruct (String.eqb s ""); simpl; [reflexivity|].
    destruct (truthy (field names "task_id" cells)); simpl; [|reflexivity].
    destruct (endsWith s "xpcshell-timings-rev"); [reflexivity|].
    destruct (endsWith s "mochitest-timings-rev"); reflexivity.
Qed.

Lemma scanJobs_fold (names : list val) (rows : list (list val)) (found : TimingsJobs) :
  Forall (fun cells => typedJob names cells = true) rows ->
  scanJobs (indexOfFrom names "job_type_name" 0) (indexOfFrom names "task_id" 0)
    (indexOfFrom names "state" 0) found (map Arr rows)
  = value (fold_left (record names) rows found).
Proof.
  intros H. revert found. induction H as [|cells rows Hc _ IH]; intros found; simpl.
  - reflexivity.
  - apply andb_true_iff in Hc. destruct Hc as [Hn _].
    rewrite (scanJob_record names found cells Hn). simpl. apply IH.
Qed.

Lemma find_append {A} (f : A -> bool) (l l' : list A) :
  find f (l ++ l')%list = match find f l with Some x => Some x | None => find f l' end.
Proof.
  induction l as [|x l IH]; simpl; [reflexivity|].
  destruct (f x); [reflexivity | exact IH].
Qed.

(** Later rows overwrite earlier ones: after the loop each entry is the task
    id of the last row that counts, or what it was before the loop. *)
Lemma fold_record_last (names : list val) (rows : list (list val)) (found : TimingsJobs) :
  xpcshell (fold_left (record names) rows found)
  = match find (qualifies names "xpcshell") (rev rows) with
    | Some cells => field names "task_id" cells
    | None => xpcshell found
    end /\
  mochitest (fold_left (record names) rows found)
  = match find (qualifies names "mochitest") (rev rows) with
    | Some cells => field names "task_id" cells
    | None => mochitest found
    end.
Proof.
  revert found. induction rows as [|cells rows IH]; intros found; simpl.
  - auto.
  - destruct (IH (record names found cells)) as [Hx Hm].
    rewrite Hx, Hm, !find_append. simpl. unfold record. clear Hx Hm IH.
    destruct (find (qualifies names "xpcshell") (rev rows));
      destruct (find (qualifies names "mochitest") (rev rows));
      destruct (qualifies names "xpcshell" cells) eqn:Ex;
      try rewrite (qualifies_disjoint names cells Ex);
      try destruct (qualifies names "mochitest" cells);
      simpl; split; reflexivity.
Qed.

Lemma lastTaskId_printable (names : list val) (harness : string) (rows : list (list val)) :
  Forall (fun cells => typedJob names cells = true) rows ->
  logIfFound (lastTaskId names harness rows) = value tt.
Proof.
  intros H. unfold lastTaskId.
  destruct (find (qualifies names harness) (rev rows)) as [cells|] eqn:E.
  - apply find_some in E. destruct E as [Hin _].
    apply in_rev in Hin. rewrite Forall_forall in H. specialize (H cells Hin).
    apply andb_true_iff in H. destruct H as [_ Hp].
    unfold logIfFound, printable in *.
    destruct (truthy (field names "task_id" cells)); [|reflexivity].
    destruct (to_string (field names "task_id" cells)); [discriminate | reflexivity].
  - reflexivity.
Qed.

(** C2. On job rows of the data model's shape, the scan returns for each
    harness the task id of the last row, in listed order, that is completed,
    has a truthy job-type name and task id, and whose name ends with
    [<harness>-timings-rev]; [null] when no row does. A row that fails the
    filter never counts, whatever its name. *)
Theorem selectTimingsJobs_last_match (names : list val) (rows : list (list val)) :
  Forall (fun cells => typedJob names cells = true) rows ->
  selectTimingsJobs (Arr names) (map Arr rows)
  = value (mkTimingsJobs (lastTaskId names "xpcshell" rows)
                         (lastTaskId names "mochitest" rows)).
Proof.
  intros H. unfold selectTimingsJobs. simpl.
  rewrite (scanJobs_fold names rows (mkTimingsJobs Null Null) H). simpl.
  destruct (fold_record_last names rows (mkTimingsJobs Null Null)) as [Hx Hm].
  simpl in Hx, Hm. fold (lastTaskId names "xpcshell" rows) in Hx.
  fold (lastTaskId names "mochitest" rows) in Hm.
  rewrite Hx, Hm.
  rewrite !lastTaskId_printable by exact H. simpl.
  destruct (fold_left (record names) rows (mkTimingsJobs Null Null)) as [x m].
  simpl in Hx, Hm. subst x m. reflexivity.
Qed.

Lemma selectTimingsJobs_last_match_witness :
  selectTimingsJobs (Arr columns) (map Arr someRows)
  = value (mkTimingsJobs (Str "J2") Null).
Proof.
  apply (selectTimingsJobs_last_match columns someRows).
  repeat constructor.
Defined.

(** ** A listing without one of the three columns *)

Lemma indexOfFrom_absent (names : list val) (name : string) (i : Z) :
  ~ In (Str name) names -> indexOfFrom names name i = -1.
Proof.
  revert i. induction names as [|n names IH]; intros i Hn; simpl.
  - reflexivity.
  - destruct (is_string n name) eqn:E.
    + exfalso. apply Hn. left. apply is_string_eq. exact E.
    + apply IH. intros Hin. apply Hn. right. exact Hin.
Qed.

(** An array has nothing at -1, so a row read through a missing column
    fails the filter. *)
Lemma scanJob_skips (jobTypeNameIndex taskIdIndex stateIndex : Z)
    (found : TimingsJobs) (cells : list val) :
  jobTypeNameIndex = -1 \/ taskIdIndex = -1 \/ stateIndex = -1 ->
  scanJob jobTypeNameIndex taskIdIndex stateIndex found (Arr cells) = value found.
Proof.
  unfold scanJob, at_index, check_bind, value.
  intros [-> | [-> | ->]]; simpl.
  - rewrite orb_true_r. reflexivity.
  - rewrite orb_true_r. reflexivity.
  - reflexivity.
Qed.

Lemma scanJobs_skips (jobTypeNameIndex taskIdIndex stateIndex : Z)
    (found : TimingsJobs) (rows : list (list val)) :
  jobTypeNameIndex = -1 \/ taskIdIndex = -1 \/ stateIndex = -1 ->
  scanJobs jobTypeNameIndex taskIdIndex stateIndex found (map Arr rows) = value found.
Proof.
  intros H. induction rows as [|cells rows IH]; simpl.
  - reflexivity.
  - rewrite (scanJob_skips _ _ _ found cells H). simpl. exact IH.
Qed.

(** Lines 65-99 on such a listing. *)
Lemma selectTimingsJobs_skips (names : list val) (rows : list (list val)) :
  ~ In (Str "job_type_name") names \/ ~ In (Str "task_id") names \/
  ~ In (Str "state") names ->
  selectTimingsJobs (Arr names) (map Arr rows) = value (mkTimingsJobs Null Null).
Proof.
  intros H. unfold selectTimingsJobs. simpl.
  rewrite scanJobs_skips; [reflexivity|].
  destruct H as [H | [H | H]].
  - left. apply indexOfFrom_absent. exact H.
  - right. left. apply indexOfFrom_absent. exact H.
  - right. right. apply indexOfFrom_absent. exact H.
Qed.

(** ** Pagination *)

Lemma prop_member (v : val) (name : string) :
  truthy v = true -> prop v name = value (member v name).
Proof. unfold member. destruct v; simpl; try discriminate; reflexivity. Qed.

Lemma concat_pageRows (acc : list val) (page : val) :
  concat acc (or_else (member page "results") (Arr [])) = (acc ++ pageRows page)%list.
Proof.
  unfold pageRows, or_else.
  destruct (member page "results") as [| |b|n|s|l|fs]; simpl;
    try reflexivity.
  - destruct b; reflexivity.
  - destruct (n =? 0); reflexivity.
  - destruct (String.eqb s ""); reflexivity.
Qed.

Lemma truthy_pageNames (page : val) : truthy (pageNames page) = true.
Proof.
  unfold pageNames, or_else.
  destruct (truthy (member page "job_property_names")) eqn:E; [exact E | reflexivity].
Qed.

Lemma bind_normal {A B} (m : M A) (k : A -> M B) (h h' : history) (a : A) :
  m h = (Normal a, h') -> bind m k h = k a h'.
Proof. intros E. unfold bind. rewrite E. reflexivity. Qed.

Lemma lift_value {A} (c : checked A) (a : A) (h : history) :
  c = value a -> lift c h = (Normal a, h).
Proof. intros ->. reflexivity. Qed.

(** [fetchJson] on a response, in the terms of the network. *)
Lemma fetchJson_response (net : Network) (url : val) (address : string)
    (h : history) (r : Response) :
  to_string url = value address ->
  net h address = Responded r ->
  fetchJson net url h =
    (if ok r
     then match body r with
          | Some v => Normal v
          | None => Thrown (SyntaxError "Unexpected end of JSON input")
          end
     else Normal Null, (h ++ [address])%list).
Proof.
  intros Hs Hnet. unfold fetchJson.
  rewrite (bind_normal _ _ h h address (lift_value _ _ h Hs)).
  assert (F : fetch net address h = (Normal r, (h ++ [address])%list))
    by (unfold fetch; rewrite Hnet; reflexivity).
  rewrite (bind_normal _ _ _ _ _ F).
  unfold json. destruct (ok r); [|reflexivity].
  destruct (body r); reflexivity.
Qed.

(** The loop on a listing: with fuel for every page it returns the rows of
    all pages, in order, after the rows it started with; a failing page
    makes it throw. *)
Lemma collectJobs_listing (net : Network) (pushId : val) (shown : string)
    (h : history) (url : val) (pages : list val) (e : ending) (h' : history) :
  to_string pushId = value shown ->
  Listing net h url pages e h' ->
  forall (fuel : nat) (allJobs : list val) (propertyNames : val),
    truthy propertyNames = true ->
    (List.length pages < fuel)%nat ->
    collectJobs net fuel pushId allJobs propertyNames url h =
      match e with
      | Complete =>
          (Normal ((allJobs ++ flat_map pageRows pages)%list,
                   propertyNamesAfter propertyNames pages), h')
      | Failed =>
          (Thrown (Error ("Failed to fetch jobs for push ID " ++ shown)), h')
      end.
Proof.
  intros Hshown HL.
  induction HL as [h url Hu | h url address r Hu Hs Hnet Hok
                  | h url address r page pages e h' Hu Hs Hnet Hok Hb Hp HL IH];
    intros fuel allJobs propertyNames Hn Hfuel.
  - destruct fuel; simpl; rewrite Hu; simpl; rewrite app_nil_r; reflexivity.
  - destruct fuel as [|fuel]; [simpl in Hfuel; lia|].
    cbn [collectJobs]. rewrite Hu.
    assert (F : fetchJson net url h = (Normal Null, (h ++ [address])%list)).
    { rewrite (fetchJson_response net url address h r Hs Hnet), Hok. reflexivity. }
    rewrite (bind_normal _ _ _ _ _ F). cbn [truthy negb].
    rewrite (bind_normal _ _ _ _ _ (lift_value _ _ _ Hshown)). reflexivity.
  - destruct fuel as [|fuel]; [simpl in Hfuel; lia|].
    cbn [collectJobs]. rewrite Hu.
    assert (F : fetchJson net url h = (Normal page, (h ++ [address])%list)).
    { rewrite (fetchJson_response net url address h r Hs Hnet), Hok, Hb. reflexivity. }
    rewrite (bind_normal _ _ _ _ _ F). rewrite Hp. cbn [negb].
    rewrite (bind_normal _ _ _ _ _ (lift_value _ _ _ (prop_member page "results" Hp))).
    rewrite (bind_normal _ _ _ _ _
               (lift_value _ _ _ (prop_member propertyNames "length" Hn))).
    rewrite concat_pageRows.
    assert (G : (if negb (truthy (member propertyNames "length"))
                 then bind (lift (prop page "job_property_names"))
                        (fun names => ret (or_else names (Arr [])))
                 else ret propertyNames) (h ++ [address])%list
                = (Normal (if truthy (member propertyNames "length")
                           then propertyNames else pageNames page),
                   (h ++ [address])%list)).
    { destruct (truthy (member propertyNames "length")); cbn [negb]; [reflexivity|].
      rewrite (bind_normal _ _ _ _ _
                 (lift_value _ _ _ (prop_member page "job_property_names" Hp))).
      reflexivity. }
    rewrite (bind_normal _ _ _ _ _ G).
    rewrite (bind_normal _ _ _ _ _ (lift_value _ _ _ (prop_member page "next" Hp))).
    rewrite IH.
    + destruct e; [|reflexivity].
      cbn [flat_map propertyNamesAfter]. rewrite <- app_assoc. reflexivity.
    + destruct (truthy (member propertyNames "length")); [exact Hn|].
      apply truthy_pageNames.
    + simpl in Hfuel. lia.
Qed.

(** Logging an error and throwing it again changes nothing. *)
Lemma try_catch_rethrow {A} (m : M A) (h : history) :
  try_catch m (fun error => throw error) h = m h.
Proof.
  unfold try_catch, throw. destruct (m h) as [[a|e|] h']; reflexivity.
Qed.

Lemma noPush_found (pushResult pushId : val) :
  PushFound pushResult pushId ->
  noPush pushResult = value false /\
  exists results first,
    prop pushResult "results" = value results /\
    at_index results 0 = value first /\
    prop first "id" = value pushId.
Proof.
  intros (fields & first & others & -> & Hr & Hid).
  split.
  - unfold noPush. simpl. rewrite Hr. reflexivity.
  - exists (Arr (first :: others)), first. simpl. rewrite Hr. auto.
Qed.

(** The job locator once the push is known: the listing decides. *)
Lemma findTimingsJobs_after_push (net : Network) (fuel : nat) (revision : string)
    (h : history) (r : Response) (pushResult pushId : val) (shown : string) :
  net h (pushUrl revision) = Responded r ->
  ok r = true ->
  body r = Some pushResult ->
  PushFound pushResult pushId ->
  to_string pushId = value shown ->
  findTimingsJobsForRevision net fuel revision h =
    bind (collectJobs net fuel pushId [] (Arr []) (Str (jobsUrl shown)))
      (fun collected => lift (selectTimingsJobs (snd collected) (fst collected)))
      (h ++ [pushUrl revision])%list.
Proof.
  intros Hnet Hok Hb Hpush Hshown.
  unfold findTimingsJobsForRevision. rewrite try_catch_rethrow.
  assert (F : fetchJson net (Str (pushUrl revision)) h
              = (Normal pushResult, (h ++ [pushUrl revision])%list)).
  { rewrite (fetchJson_response net (Str (pushUrl revision)) (pushUrl revision) h r
               eq_refl Hnet), Hok, Hb. reflexivity. }
  rewrite (bind_normal _ _ _ _ _ F).
  destruct (noPush_found pushResult pushId Hpush)
    as (Hno & results & first & Hres & Hfirst & Hid).
  rewrite (bind_normal _ _ _ _ _ (lift_value _ _ _ Hno)).
  rewrite (bind_normal _ _ _ _ _ (lift_value _ _ _ Hres)).
  rewrite (bind_normal _ _ _ _ _ (lift_value _ _ _ Hfirst)).
  rewrite (bind_normal _ _ _ _ _ (lift_value _ _ _ Hid)).
  rewrite (bind_normal _ _ _ _ _ (lift_value _ _ _ Hshown)).
  reflexivity.
Qed.

(** The names come from the first page when it has some. *)
Lemma propertyNamesAfter_first (page : val) (pages : list val) (n : val) (names : list val) :
  member page "job_property_names" = Arr (n :: names) ->
  propertyNamesAfter (Arr []) (page :: pages) = Arr (n :: names).
Proof.
  intros E. cbn [propertyNamesAfter]. unfold pageNames. rewrite E.
  change (if truthy (member (Arr []) "length") then Arr [] else or_else (Arr (n :: names)) (Arr []))
    with (Arr (n :: names)).
  induction pages as [|p pages IH]; [reflexivity|].
  cbn [propertyNamesAfter].
  change (truthy (member (Arr (n :: names)) "length")) with true.
  exact IH.
Qed.

(** C1. Once the push is found, the job locator follows the [next] links
    from the first page of the listing. When the listing is complete, what
    it returns is the scan of the rows of all pages, concatenated in page
    order; when a page fails, it throws and returns nothing. Fuel for one
    more request than there are pages is enough. *)
Theorem findTimingsJobs_pagination (net : Network) (fuel : nat) (revision : string)
    (h : history) (r : Response) (pushResult pushId : val) (shown : string)
    (pages : list val) (e : ending) (h' : history) :
  net h (pushUrl revision) = Responded r ->
  ok r = true ->
  body r = Some pushResult ->
  PushFound pushResult pushId ->
  to_string pushId = value shown ->
  Listing net (h ++ [pushUrl revision])%list (Str (jobsUrl shown)) pages e h' ->
  (List.length pages < fuel)%nat ->
  findTimingsJobsForRevision net fuel revision h =
    match e with
    | Complete =>
        (outcome (selectTimingsJobs (propertyNamesAfter (Arr []) pages)
                    (flat_map pageRows pages)), h')
    | Failed =>
        (Thrown (Error ("Failed to fetch jobs for push ID " ++ shown)), h')
    end.
Proof.
  intros Hnet Hok Hb Hpush Hshown HL Hfuel.
  rewrite (findTimingsJobs_after_push net fuel revision h r pushResult pushId shown
             Hnet Hok Hb Hpush Hshown).
  unfold bind.
  rewrite (collectJobs_listing net pushId shown _ _ pages e h' Hshown HL
             fuel [] (Arr []) eq_refl Hfuel).
  destruct e; [|reflexivity].
  cbn [fst snd app]. apply lift_outcome.
Qed.

Lemma pushBody_found : PushFound pushBody (Num 555).
Proof.
  exists [("results", Arr [Obj [("id", Num 555)]])], (Obj [("id", Num 555)]), [].
  repeat split.
Qed.

Lemma treeherder_listing :
  Listing treeherder [pushUrl revision0] (Str (jobsUrl "555")) [page1; page2] Complete
    [pushUrl revision0; jobsUrl "555"; page2Url].
Proof.
  apply (Listing_page treeherder [pushUrl revision0] (Str (jobsUrl "555")) (jobsUrl "555")
           (mkResponse 200 "OK" (Some page1)) page1 [page2] Complete
           [pushUrl revision0; jobsUrl "555"; page2Url]); try reflexivity.
  apply (Listing_page treeherder [pushUrl revision0; jobsUrl "555"] (Str page2Url) page2Url
           (mkResponse 200 "OK" (Some page2)) page2 [] Complete
           [pushUrl revision0; jobsUrl "555"; page2Url]); try reflexivity.
  apply (Listing_complete treeherder [pushUrl revision0; jobsUrl "555"; page2Url] Null).
  reflexivity.
Qed.

Lemma brokenTreeherder_listing :
  Listing brokenTreeherder [pushUrl revision0] (Str (jobsUrl "555")) [page1] Failed
    [pushUrl revision0; jobsUrl "555"; page2Url].
Proof.
  apply (Listing_page brokenTreeherder [pushUrl revision0] (Str (jobsUrl "555"))
           (jobsUrl "555") (mkResponse 200 "OK" (Some page1)) page1 [] Failed
           [pushUrl revision0; jobsUrl "555"; page2Url]); try reflexivity.
  apply (Listing_failed brokenTreeherder [pushUrl revision0; jobsUrl "555"] (Str page2Url)
           page2Url (mkResponse 500 "Internal Server Error" None)); reflexivity.
Qed.

Lemma findTimingsJobs_pagination_witness :
  findTimingsJobsForRevision treeherder 3 revision0 [] =
    (Normal (mkTimingsJobs (Str "J2") Null),
     [pushUrl revision0; jobsUrl "555"; page2Url]) /\
  findTimingsJobsForRevision brokenTreeherder 3 revision0 [] =
    (Thrown (Error "Failed to fetch jobs for push ID 555"),
     [pushUrl revision0; jobsUrl "555"; page2Url]).
Proof.
  split.
  - apply (findTimingsJobs_pagination treeherder 3 revision0 []
             (mkResponse 200 "OK" (Some pushBody)) pushBody (Num 555) "555"
             [page1; page2] Complete [pushUrl revision0; jobsUrl "555"; page2Url]
             eq_refl eq_refl eq_refl pushBody_found eq_refl treeherder_listing).
    simpl. lia.
  - apply (findTimingsJobs_pagination brokenTreeherder 3 revision0 []
             (mkResponse 200 "OK" (Some pushBody)) pushBody (Num 555) "555"
             [page1] Failed [pushUrl revision0; jobsUrl "555"; page2Url]
             eq_refl eq_refl eq_refl pushBody_found eq_refl brokenTreeherder_listing).
    simpl. lia.
Defined.

(** ** A listing without one of the three columns, end to end *)

(** C10. When the property names lack [job_type_name], [task_id] or
    [state], the scan of array rows does not throw: no row passes the
    filter and both entries stay [null]; on a complete listing with such
    names the job locator returns [{xpcshell: null, mochitest: null}]. *)
Theorem findTimingsJobs_missing_column (names : list val) (rows : list (list val)) :
  ~ In (Str "job_type_name") names \/ ~ In (Str "task_id") names \/
  ~ In (Str "state") names ->
  selectTimingsJobs (Arr names) (map Arr rows) = value (mkTimingsJobs Null Null) /\
  forall (net : Network) (fuel : nat) (revision : string) (h : history) (r : Response)
         (pushResult pushId : val) (shown : string) (pages : list val) (h' : history),
    net h (pushUrl revision) = Responded r ->
    ok r = true ->
    body r = Some pushResult ->
    PushFound pushResult pushId ->
    to_string pushId = value shown ->
    Listing net (h ++ [pushUrl revision])%list (Str (jobsUrl shown)) pages Complete h' ->
    (List.length pages < fuel)%nat ->
    propertyNamesAfter (Arr []) pages = Arr names ->
    flat_map pageRows pages = map Arr rows ->
    findTimingsJobsForRevision net fuel revision h =
      (Normal (mkTimingsJobs Null Null), h').
Proof.
  intros Hmissing.
  pose proof (selectTimingsJobs_skips names rows Hmissing) as Hscan.
  split; [exact Hscan|].
  intros net fuel revision h r pushResult pushId shown pages h'
         Hnet Hok Hb Hpush Hshown HL Hfuel Hnames Hrows.
  rewrite (findTimingsJobs_after_push net fuel revision h r pushResult pushId shown
             Hnet Hok Hb Hpush Hshown).
  unfold bind.
  rewrite (collectJobs_listing net pushId shown _ _ pages Complete h' Hshown HL
             fuel [] (Arr []) eq_refl Hfuel).
  cbn [fst snd app]. rewrite Hnames, Hrows, Hscan. reflexivity.
Qed.

Lemma stateless_listing :
  Listing stateless [pushUrl revision0] (Str (jobsUrl "555")) [statelessPage] Complete
    [pushUrl revision0; jobsUrl "555"].
Proof.
  apply (Listing_page stateless [pushUrl revision0] (Str (jobsUrl "555")) (jobsUrl "555")
           (mkResponse 200 "OK" (Some statelessPage)) statelessPage [] Complete
           [pushUrl revision0; jobsUrl "555"]); try reflexivity.
  apply (Listing_complete stateless [pushUrl revision0; jobsUrl "555"] Null).
  reflexivity.
Qed.

Lemma findTimingsJobs_missing_column_witness :
  selectTimingsJobs (Arr [Str "job_type_name"; Str "task_id"]) (map Arr someRows)
    = value (mkTimingsJobs Null Null) /\
  findTimingsJobsForRevision stateless 2 revision0 [] =
    (Normal (mkTimingsJobs Null Null), [pushUrl revision0; jobsUrl "555"]).
Proof.
  assert (Hmissing : ~ In (Str "job_type_name") [Str "job_type_name"; Str "task_id"] \/
                     ~ In (Str "task_id") [Str "job_type_name"; Str "task_id"] \/
                     ~ In (Str "state") [Str "job_type_name"; Str "task_id"]).
  { right. right. intros [H | [H | []]]; discriminate H. }
  split.
  - apply (proj1 (findTimingsJobs_missing_column
                    [Str "job_type_name"; Str "task_id"] someRows Hmissing)).
  - apply (proj2 (findTimingsJobs_missing_column
                    [Str "job_type_name"; Str "task_id"] someRows Hmissing)
             stateless 2%nat revision0 [] (mkResponse 200 "OK" (Some pushBody))
             pushBody (Num 555) "555" [statelessPage] [pushUrl revision0; jobsUrl "555"]
             eq_refl eq_refl eq_refl pushBody_found eq_refl stateless_listing).
    + simpl. lia.
    + reflexivity.
    + reflexivity.
Defined.

(** ** The try-revision branch *)

Lemma fetchData_try (net : Network) (location : Location) (fuel : nat)
    (filename harness revision : string) (h : history) :
  protocol location = "https:" ->
  TryRevisionFilename filename harness revision ->
  fetchData net location fuel filename h =
    fetchTryRevision net fuel filename harness revision h.
Proof.
  intros Hp H. apply tryMatch_iff in H. unfold fetchData. rewrite Hp, H. reflexivity.
Qed.

(** The [try] block once the job locator has returned. *)
Lemma try_block_located {A B C} (m : M A) (k : A -> M B) (handler : exn -> M B)
    (k2 : B -> M C) (h h1 : history) (a : A) :
  m h = (Normal a, h1) ->
  bind (try_catch (bind m k) handler) k2 h = bind (try_catch (k a) handler) k2 h1.
Proof.
  intros E. unfold bind, try_catch. rewrite E. reflexivity.
Qed.

Lemma timingsJob_xpcshell (jobs : TimingsJobs) : timingsJob jobs "xpcshell" = xpcshell jobs.
Proof. reflexivity. Qed.

Lemma timingsJob_mochitest (jobs : TimingsJobs) : timingsJob jobs "mochitest" = mochitest jobs.
Proof. reflexivity. Qed.

Lemma replace_xpcshell_try (rest : string) :
  replace ("xpcshell-try-" ++ rest) "xpcshell-" "mochitest-" = "mochitest-try-" ++ rest.
Proof.
  exact (replace_prefix "xpcshell-" "mochitest-" ("try-" ++ rest)).
Qed.

Lemma fallback_without_xpcshell (net : Network) (fuel : nat) (revision : string)
    (h h1 : history) (jobs : TimingsJobs) (mtid : string) :
  findTimingsJobsForRevision net fuel revision h = (Normal jobs, h1) ->
  truthy (mochitest jobs) = true ->
  to_string (mochitest jobs) = value mtid ->
  truthy (xpcshell jobs) = false ->
  fetchTryRevision net fuel ("xpcshell-try-" ++ revision ++ ".json") "xpcshell" revision h =
    fetch net (artifactUrl mtid ("mochitest-try-" ++ revision ++ ".json")) h1.
Proof.
  intros E Hm Hs Hx. unfold fetchTryRevision.
  rewrite (try_block_located _ _ _ _ h h1 jobs E).
  rewrite timingsJob_xpcshell, Hx, Hm, Hs, replace_xpcshell_try.
  reflexivity.
Qed.

Lemma fetch_response (net : Network) (url : string) (h : history) (r : Response) :
  net h url = Responded r -> fetch net url h = (Normal r, (h ++ [url])%list).
Proof. intros E. unfold fetch. rewrite E. reflexivity. Qed.

Lemma fallback_after_failed_xpcshell (net : Network) (fuel : nat) (revision : string)
    (h h1 : history) (jobs : TimingsJobs) (mtid xtid : string) (r : Response) :
  findTimingsJobsForRevision net fuel revision h = (Normal jobs, h1) ->
  truthy (mochitest jobs) = true ->
  to_string (mochitest jobs) = value mtid ->
  truthy (xpcshell jobs) = true ->
  to_string (xpcshell jobs) = value xtid ->
  net h1 (artifactUrl xtid ("xpcshell-try-" ++ revision ++ ".json")) = Responded r ->
  ok r = false ->
  fetchTryRevision net fuel ("xpcshell-try-" ++ revision ++ ".json") "xpcshell" revision h =
    fetch net (artifactUrl mtid ("mochitest-try-" ++ revision ++ ".json"))
      (h1 ++ [artifactUrl xtid ("xpcshell-try-" ++ revision ++ ".json")])%list.
Proof.
  intros E Hm Hs Hx Hxs Hnet Hok. unfold fetchTryRevision.
  rewrite (try_block_located _ _ _ _ h h1 jobs E).
  rewrite timingsJob_xpcshell, Hx, Hm, Hs, Hxs, replace_xpcshell_try.
  unfold bind, try_catch, lift, value, ret.
  rewrite (fetch_response net _ h1 r Hnet), Hok. reflexivity.
Qed.

Lemma mochitest_without_job (net : Network) (fuel : nat) (revision : string)
    (h h1 : history) (jobs : TimingsJobs) :
  findTimingsJobsForRevision net fuel revision h = (Normal jobs, h1) ->
  truthy (mochitest jobs) = false ->
  fetchTryRevision net fuel ("mochitest-try-" ++ revision ++ ".json") "mochitest" revision h =
    (Normal (newResponse 404 ("No mochitest-timings job found for revision " ++ revision)),
     h1).
Proof.
  intros E Hm. unfold fetchTryRevision.
  rewrite (try_block_located _ _ _ _ h h1 jobs E).
  rewrite timingsJob_mochitest, Hm. reflexivity.
Qed.

Lemma mochitest_with_job (net : Network) (fuel : nat) (revision : string)
    (h h1 : history) (jobs : TimingsJobs) (mtid : string) (r : Response) :
  findTimingsJobsForRevision net fuel revision h = (Normal jobs, h1) ->
  truthy (mochitest jobs) = true ->
  to_string (mochitest jobs) = value mtid ->
  net h1 (artifactUrl mtid ("mochitest-try-" ++ revision ++ ".json")) = Responded r ->
  fetchTryRevision net fuel ("mochitest-try-" ++ revision ++ ".json") "mochitest" revision h =
    (Normal (if ok r then r
             else newResponse 404 ("No mochitest-timings job found for revision " ++ revision)),
     (h1 ++ [artifactUrl mtid ("mochitest-try-" ++ revision ++ ".json")])%list).
Proof.
  intros E Hm Hs Hnet. unfold fetchTryRevision.
  rewrite (try_block_located _ _ _ _ h h1 jobs E).
  rewrite timingsJob_mochitest, Hm, Hs.
  unfold bind, try_catch, lift, value, ret.
  rewrite (fetch_response net _ h1 r Hnet).
  destruct (ok r); reflexivity.
Qed.

(** C4. For an xpcshell try-revision file, when the locator found a
    mochitest task and either no xpcshell task or an xpcshell artifact that
    is not ok, [fetchData] requests the [mochitest-] file from the mochitest
    task and ends as that request ends, with no other request. For a
    mochitest try-revision file only the mochitest task is ever asked: a
    missing task or an artifact that is not ok gives the 404 response. *)
Theorem fetchData_harness_fallback (net : Network) (location : Location) (fuel : nat)
    (revision : string) (h h1 : history) (jobs : TimingsJobs) :
  protocol location = "https:" ->
  String.length revision = 40%nat ->
  allHexLower revision = true ->
  findTimingsJobsForRevision net fuel revision h = (Normal jobs, h1) ->
  let xpcshellName := "xpcshell-try-" ++ revision ++ ".json" in
  let mochitestName := "mochitest-try-" ++ revision ++ ".json" in
  let noJob :=
    newResponse 404 ("No mochitest-timings job found for revision " ++ revision) in
  (forall mtid,
     truthy (mochitest jobs) = true ->
     to_string (mochitest jobs) = value mtid ->
     (truthy (xpcshell jobs) = false ->
        fetchData net location fuel xpcshellName h =
          fetch net (artifactUrl mtid mochitestName) h1) /\
     (forall xtid r,
        truthy (xpcshell jobs) = true ->
        to_string (xpcshell jobs) = value xtid ->
        net h1 (artifactUrl xtid xpcshellName) = Responded r ->
        ok r = false ->
        fetchData net location fuel xpcshellName h =
          fetch net (artifactUrl mtid mochitestName)
            (h1 ++ [artifactUrl xtid xpcshellName])%list)) /\
  (truthy (mochitest jobs) = false ->
     fetchData net location fuel mochitestName h = (Normal noJob, h1)) /\
  (forall mtid r,
     truthy (mochitest jobs) = true ->
     to_string (mochitest jobs) = value mtid ->
     net h1 (artifactUrl mtid mochitestName) = Responded r ->
     fetchData net location fuel mochitestName h =
       (Normal (if ok r then r else noJob),
        (h1 ++ [artifactUrl mtid mochitestName])%list)).
Proof.
  intros Hp Hl Hx E xpcshellName mochitestName noJob.
  assert (Tx : TryRevisionFilename xpcshellName "xpcshell" revision)
    by (repeat split; auto).
  assert (Tm : TryRevisionFilename mochitestName "mochitest" revision)
    by (repeat split; auto).
  rewrite (fetchData_try net location fuel xpcshellName "xpcshell" revision h Hp Tx).
  rewrite (fetchData_try net location fuel mochitestName "mochitest" revision h Hp Tm).
  split; [|split].
  - intros mtid Hm Hs. split.
    + intros Hnx. exact (fallback_without_xpcshell net fuel revision h h1 jobs mtid E Hm Hs Hnx).
    + intros xtid r Hxt Hxs Hnet Hok.
      exact (fallback_after_failed_xpcshell net fuel revision h h1 jobs mtid xtid r
               E Hm Hs Hxt Hxs Hnet Hok).
  - intros Hm. exact (mochitest_without_job net fuel revision h h1 jobs E Hm).
  - intros mtid r Hm Hs Hnet.
    exact (mochitest_with_job net fuel revision h h1 jobs mtid r E Hm Hs Hnet).
Qed.

Lemma fetchData_harness_fallback_witness :
  fetchData mochitestOnly dashboard 2 xpcshellFile [] =
    (Normal (mkResponse 200 "OK" (Some (Obj [("tests", Arr [])]))),
     [pushUrl revision0; jobsUrl "555"; artifactUrl "T2" mochitestFile]) /\
  fetchData bothJobs dashboard 2 xpcshellFile [] =
    (Normal (mkResponse 200 "OK" (Some (Obj [("tests", Arr [])]))),
     [pushUrl revision0; jobsUrl "555"; artifactUrl "T1" xpcshellFile;
      artifactUrl "T2" mochitestFile]) /\
  fetchData treeherder dashboard 3 mochitestFile [] =
    (Normal (mkResponse 404
               ("No mochitest-timings job found for revision " ++ revision0) None),
     [pushUrl revision0; jobsUrl "555"; page2Url]) /\
  fetchData bothJobs dashboard 2 mochitestFile [] =
    (Normal (mkResponse 200 "OK" (Some (Obj [("tests", Arr [])]))),
     [pushUrl revision0; jobsUrl "555"; artifactUrl "T2" mochitestFile]).
Proof.
  split; [|split; [|split]].
  - apply (proj1 (proj1 (fetchData_harness_fallback mochitestOnly dashboard 2 revision0 []
                           [pushUrl revision0; jobsUrl "555"]
                           (mkTimingsJobs Null (Str "T2"))
                           eq_refl eq_refl eq_refl eq_refl)
                    "T2" eq_refl eq_refl)).
    reflexivity.
  - apply (proj2 (proj1 (fetchData_harness_fallback bothJobs dashboard 2 revision0 []
                           [pushUrl revision0; jobsUrl "555"]
                           (mkTimingsJobs (Str "T1") (Str "T2"))
                           eq_refl eq_refl eq_refl eq_refl)
                    "T2" eq_refl eq_refl)
             "T1" (mkResponse 404 "Not Found" None)); reflexivity.
  - apply (proj1 (proj2 (fetchData_harness_fallback treeherder dashboard 3 revision0 []
                           [pushUrl revision0; jobsUrl "555"; page2Url]
                           (mkTimingsJobs (Str "J2") Null)
                           eq_refl eq_refl eq_refl eq_refl))).
    reflexivity.
  - apply (proj2 (proj2 (fetchData_harness_fallback bothJobs dashboard 2 revision0 []
                           [pushUrl revision0; jobsUrl "555"]
                           (mkTimingsJobs (Str "T1") (Str "T2"))
                           eq_refl eq_refl eq_refl eq_refl))
             "T2" (mkResponse 200 "OK" (Some (Obj [("tests", Arr [])])))); reflexivity.
Defined.

(** ** Failures on the try-revision branch *)

(** A failure of the job locator becomes a 404 response that carries the
    error message. *)
Lemma locator_failure_is_404 (net : Network) (fuel : nat)
    (filename requestedHarness revision : string) (h h1 : history) (e : exn) :
  findTimingsJobsForRevision net fuel revision h = (Thrown e, h1) ->
  fetchTryRevision net fuel filename requestedHarness revision h =
    (Normal (newResponse 404 (message e)), h1).
Proof.
  intros E. unfold fetchTryRevision, bind, try_catch. rewrite E. reflexivity.
Qed.


(** The fallback request is not awaited: its network failure is not turned
    into a response, it is what the branch rejects with. *)
Lemma fallback_failure_escapes (net : Network) (fuel : nat) (revision : string)
    (h h1 : history) (jobs : TimingsJobs) (mtid msg : string) :
  findTimingsJobsForRevision net fuel revision h = (Normal jobs, h1) ->
  truthy (mochitest jobs) = true ->
  to_string (mochitest jobs) = value mtid ->
  truthy (xpcshell jobs) = false ->
  net h1 (artifactUrl mtid ("mochitest-try-" ++ revision ++ ".json")) = NetworkFailure msg ->
  fetchTryRevision net fuel ("xpcshell-try-" ++ revision ++ ".json") "xpcshell" revision h =
    (Thrown (TypeError msg),
     (h1 ++ [artifactUrl mtid ("mochitest-try-" ++ revision ++ ".json")])%list).
Proof.
  intros E Hm Hs Hx Hnet.
  rewrite (fallback_without_xpcshell net fuel revision h h1 jobs mtid E Hm Hs Hx).
  unfold fetch. rewrite Hnet. reflexivity.
Qed.



(** C5 fails on the code: the locator finds only a mochitest task and the
    request for its artifact fails on the network; [fetchData] rejects with
    that failure instead of returning a 404 response. *)
Theorem fetchData_rejects_when_fallback_unreachable :
  fetchData artifactUnreachable dashboard 2 xpcshellFile [] =
    (Thrown (TypeError "NetworkError when attempting to fetch resource."),
     [pushUrl revision0; jobsUrl "555"; artifactUrl "T2" mochitestFile]).
Proof. reflexivity. Qed.

(** ** End-to-end runs *)

(** [index.json] with no [kind] parameter: the xpcshell index answers 200
    and that response is returned. *)
Example run_generic_index :
  fetchData indexWithXpcshell dashboard 0 "index.json" [] =
    (Normal (mkResponse 200 "OK" (Some (Obj [("tests", Arr [])]))),
     [indexUrl "mozilla-central" "xpcshell" "index.json"]).
Proof. reflexivity. Qed.

(** A try revision with a completed xpcshell job: the artifact of its task
    is fetched. *)
Example run_try_revision :
  fetchData xpcshellJob dashboard 2 xpcshellFile [] =
    (Normal (mkResponse 200 "OK" (Some (Obj [("tests", Arr [])]))),
     [pushUrl revision0; jobsUrl "555"; artifactUrl "T1" xpcshellFile]).
Proof. reflexivity. Qed.

(** The same request when only the mochitest job completed. *)
Example run_try_revision_mochitest :
  fetchData mochitestOnly dashboard 2 xpcshellFile [] =
    (Normal (mkResponse 200 "OK" (Some (Obj [("tests", Arr [])]))),
     [pushUrl revision0; jobsUrl "555"; artifactUrl "T2" mochitestFile]).
Proof. reflexivity. Qed.

(** No push for the revision: a 404 response with the locator's message. *)
Example run_no_push :
  fetchData indexServer dashboard 2 xpcshellFile [] =
    (Normal (mkResponse 404
               ("No push found for revision " ++ revision0 ++ " on try") None),
     [pushUrl revision0]).
Proof. reflexivity. Qed.

(** Without fuel the pagination has not finished: the call is pending, it
    has not failed. *)
Example run_out_of_fuel :
  fetchData xpcshellJob dashboard 0 xpcshellFile [] = (Pending, [pushUrl revision0]).
Proof. reflexivity. Qed.

(** Local mode: the first fetch fails on the network and the mochitest file
    is tried. *)
Example run_local_fallback :
  fetchData localFiles localPage 0 "xpcshell-try-myfile.json" [] =
    (Normal (mkResponse 200 "OK" (Some (Obj [("tests", Arr [])]))),
     [localUrl "xpcshell-try-myfile.json"; localUrl "mochitest-try-myfile.json"]).
Proof. reflexivity. Qed.

(** A row that is [null], or a completed row whose job-type name is a
    number, is outside the data model: the scan throws on it. *)
Example scan_null_row :
  selectTimingsJobs (Arr columns) [Null] =
    raise (TypeError "Cannot read properties of null (reading '0')").
Proof. reflexivity. Qed.

Example scan_numeric_name :
  selectTimingsJobs (Arr columns) [Arr [Num 7; Str "T1"; Str "completed"]] =
    raise (TypeError "jobName.endsWith is not a function").
Proof. reflexivity. Qed.

(** * Further properties of the fetcher *)

(** ** The index branch *)

(** A network failure of the first index request is not handled: the call
    rejects with it and no retry is made, not even for an [xpcshell-try-]
    file name. *)
Theorem fetchData_index_unreachable (net : Network) (location : Location) (fuel : nat)
    (filename : string) (h : history) (msg : string) :
  protocol location = "https:" ->
  tryMatch filename = None ->
  net h (indexUrl (repositoryOf location) (detectHarness location filename) filename)
    = NetworkFailure msg ->
  fetchData net location fuel filename h =
    (Thrown (TypeError msg),
     (h ++ [indexUrl (repositoryOf location) (detectHarness location filename) filename])%list).
Proof.
  intros Hp Hm Hnet.
  rewrite (fetchData_remote net location fuel filename h Hp Hm).
  unfold fetchRemote, fetchFromCI, bind, fetch. cbv zeta.
  fold (repositoryOf location). rewrite Hnet. reflexivity.
Qed.

Lemma fetchData_index_unreachable_witness :
  fetchData indexDown dashboard 0 "xpcshell-try-abc.json" [] =
    (Thrown (TypeError "NetworkError when attempting to fetch resource."),
     [indexUrl "mozilla-central" "xpcshell" "xpcshell-try-abc.json"]).
Proof.
  apply (fetchData_index_unreachable indexDown dashboard 0 "xpcshell-try-abc.json" []
           "NetworkError when attempting to fetch resource." eq_refl eq_refl eq_refl).
Defined.

Lemma detectHarness_kind (protocol0 hostname0 : string) (kind0 kind1 : option string)
    (filename : string) :
  filename <> "index.json" ->
  detectHarness (mkLocation protocol0 hostname0 kind0) filename =
  detectHarness (mkLocation protocol0 hostname0 kind1) filename.
Proof.
  intros Hne. unfold detectHarness.
  apply String.eqb_neq in Hne. rewrite Hne. reflexivity.
Qed.

(** The [kind] parameter of the page matters for [index.json] only: for
    any other file name [fetchData] does the same with or without it. *)
Theorem fetchData_kind_only_for_index (net : Network) (protocol0 hostname0 : string)
    (kind0 kind1 : option string) (fuel : nat) (filename : string) (h : history) :
  filename <> "index.json" ->
  fetchData net (mkLocation protocol0 hostname0 kind0) fuel filename h =
  fetchData net (mkLocation protocol0 hostname0 kind1) fuel filename h.
Proof.
  intros Hne. unfold fetchData. cbn [protocol].
  destruct (String.eqb protocol0 "https:"); [|reflexivity].
  destruct (tryMatch filename) as [[requestedHarness revision]|]; [reflexivity|].
  unfold fetchRemote, fetchFromCI. cbv zeta. cbn [hostname].
  rewrite (detectHarness_kind protocol0 hostname0 kind0 kind1 filename Hne).
  reflexivity.
Qed.

Lemma fetchData_kind_only_for_index_witness :
  fetchData indexServer (mkLocation "https:" "tests.firefox.dev" (Some "mochitest")) 0
    "xpcshell-components.json" [] =
  fetchData indexServer (mkLocation "https:" "tests.firefox.dev" None) 0
    "xpcshell-components.json" [].
Proof.
  apply (fetchData_kind_only_for_index indexServer "https:" "tests.firefox.dev"
           (Some "mochitest") None 0 "xpcshell-components.json" []).
  discriminate.
Defined.

(** The requests of the index branch. *)
Lemma fetchData_index_requests_aux (net : Network) (location : Location) (fuel : nat)
    (filename : string) (h : history) :
  protocol location = "https:" ->
  tryMatch filename = None ->
  let first := indexUrl (repositoryOf location) (detectHarness location filename) filename in
  snd (fetchData net location fuel filename h) = (h ++ [first])%list \/
  exists rest,
    filename = "xpcshell-try-" ++ rest /\
    snd (fetchData net location fuel filename h) =
      (h ++ [first; indexUrl (repositoryOf location) "mochitest" ("mochitest-try-" ++ rest)])%list.
Proof.
  intros Hp Hm first.
  rewrite (fetchData_remote net location fuel filename h Hp Hm).
  destruct (net h first) as [msg|r] eqn:Hnet.
  - left. unfold fetchRemote, fetchFromCI, bind, fetch. cbv zeta.
    fold (repositoryOf location). fold first. rewrite Hnet. reflexivity.
  - destruct (ok r) eqn:Hok.
    + left. rewrite (fetchRemote_keep net location filename h r Hnet (or_introl Hok)).
      reflexivity.
    + destruct (startsWith filename "xpcshell-try-") eqn:Hs.
      * right. apply startsWith_iff in Hs. destruct Hs as [rest ->].
        exists rest. split; [reflexivity|].
        rewrite (fetchRemote_retry net location rest h r Hnet Hok).
        unfold fetch. fold first.
        destruct (net (h ++ [first])%list _); cbn [snd]; rewrite <- app_assoc; reflexivity.
      * left. rewrite (fetchRemote_keep net location filename h r Hnet); [reflexivity|].
        right. intros Hex. apply startsWith_iff in Hex. congruence.
Qed.

(** The index branch makes one request, or two for an [xpcshell-try-] file
    name, whatever the network does; the second one is for the renamed file
    under the mochitest harness. *)
Theorem fetchData_index_requests (net : Network) (location : Location) (fuel : nat)
    (filename : string) (h : history) :
  protocol location = "https:" ->
  tryMatch filename = None ->
  let first := indexUrl (repositoryOf location) (detectHarness location filename) filename in
  snd (fetchData net location fuel filename h) = (h ++ [first])%list \/
  exists rest,
    filename = "xpcshell-try-" ++ rest /\
    snd (fetchData net location fuel filename h) =
      (h ++ [first; indexUrl (repositoryOf location) "mochitest" ("mochitest-try-" ++ rest)])%list.
Proof. exact (fetchData_index_requests_aux net location fuel filename h). Qed.

Lemma fetchData_index_requests_witness :
  snd (fetchData indexServer dashboard 0 "xpcshell-foo.json" []) =
    [indexUrl "mozilla-central" "xpcshell" "xpcshell-foo.json"] \/
  exists rest,
    "xpcshell-foo.json" = "xpcshell-try-" ++ rest /\
    snd (fetchData indexServer dashboard 0 "xpcshell-foo.json" []) =
      [indexUrl "mozilla-central" "xpcshell" "xpcshell-foo.json";
       indexUrl "mozilla-central" "mochitest" ("mochitest-try-" ++ rest)].
Proof.
  apply (fetchData_index_requests indexServer dashboard 0 "xpcshell-foo.json" []
           eq_refl eq_refl).
Defined.

(** ** The renamed file *)

(** The file tried instead of an xpcshell try-revision file is the mochitest
    try-revision file of the same revision; and the renamed legacy file is
    one that harness detection itself gives to mochitest. *)
Theorem renamed_file_is_mochitest (location : Location) (filename : string) :
  (forall revision,
     tryMatch filename = Some ("xpcshell", revision) ->
     tryMatch (replace filename "xpcshell-" "mochitest-") = Some ("mochitest", revision)) /\
  (forall rest,
     filename = "xpcshell-try-" ++ rest ->
     replace filename "xpcshell-" "mochitest-" = "mochitest-try-" ++ rest /\
     detectHarness location (replace filename "xpcshell-" "mochitest-") = "mochitest").
Proof.
  split.
  - intros revision H. apply tryMatch_iff in H.
    destruct H as (_ & Hl & Hx & ->).
    change ("xpcshell" ++ "-try-" ++ revision ++ ".json")
      with ("xpcshell-try-" ++ (revision ++ ".json")).
    rewrite replace_xpcshell_try.
    apply tryMatch_iff. repeat split; auto.
  - intros rest ->. rewrite replace_xpcshell_try. split; reflexivity.
Qed.

Lemma renamed_file_is_mochitest_witness :
  tryMatch (replace xpcshellFile "xpcshell-" "mochitest-") = Some ("mochitest", revision0) /\
  replace "xpcshell-try-abc.json" "xpcshell-" "mochitest-" = "mochitest-try-abc.json" /\
  detectHarness dashboard (replace "xpcshell-try-abc.json" "xpcshell-" "mochitest-")
    = "mochitest".
Proof.
  split.
  - apply (proj1 (renamed_file_is_mochitest dashboard xpcshellFile) revision0).
    reflexivity.
  - apply (proj2 (renamed_file_is_mochitest dashboard "xpcshell-try-abc.json") "abc.json").
    reflexivity.
Defined.

(** ** The repository of the index *)

(** The index is asked under [gecko.v2.try] exactly when the page's host is
    [fqueze.github.io], under [gecko.v2.mozilla-central] on any other host;
    the retry of an [xpcshell-try-] name uses the same repository as the
    first request. *)
Theorem fetchData_repository (net : Network) (location : Location) (fuel : nat)
    (filename : string) (h : history) :
  protocol location = "https:" ->
  tryMatch filename = None ->
  exists repository,
    (hostname location = "fqueze.github.io" /\ repository = "try" \/
     hostname location <> "fqueze.github.io" /\ repository = "mozilla-central") /\
    (snd (fetchData net location fuel filename h) =
       (h ++ [indexUrl repository (detectHarness location filename) filename])%list \/
     exists retried,
       snd (fetchData net location fuel filename h) =
         (h ++ [indexUrl repository (detectHarness location filename) filename;
                indexUrl repository "mochitest" retried])%list).
Proof.
  intros Hp Hm. exists (repositoryOf location). split.
  - unfold repositoryOf.
    destruct (String.eqb (hostname location) "fqueze.github.io") eqn:E.
    + left. apply String.eqb_eq in E. auto.
    + right. apply String.eqb_neq in E. auto.
  - destruct (fetchData_index_requests_aux net location fuel filename h Hp Hm)
      as [H | (rest & _ & H)].
    + left. exact H.
    + right. exists ("mochitest-try-" ++ rest). exact H.
Qed.

Lemma fetchData_repository_witness :
  exists repository,
    (hostname demoPage = "fqueze.github.io" /\ repository = "try" \/
     hostname demoPage <> "fqueze.github.io" /\ repository = "mozilla-central") /\
    (snd (fetchData indexServer demoPage 0 "xpcshell-try-abc.json" []) =
       [indexUrl repository (detectHarness demoPage "xpcshell-try-abc.json")
          "xpcshell-try-abc.json"] \/
     exists retried,
       snd (fetchData indexServer demoPage 0 "xpcshell-try-abc.json" []) =
         [indexUrl repository (detectHarness demoPage "xpcshell-try-abc.json")
            "xpcshell-try-abc.json";
          indexUrl repository "mochitest" retried]).
Proof.
  apply (fetchData_repository indexServer demoPage 0 "xpcshell-try-abc.json" []
           eq_refl eq_refl).
Defined.

(** ** Local mode *)

Lemma fetchData_local_mode (net : Network) (location : Location) (fuel : nat)
    (filename : string) (h : history) :
  protocol location <> "https:" ->
  fetchData net location fuel filename h = fetchLocal net filename h.
Proof.
  intros Hp. unfold fetchData. apply String.eqb_neq in Hp. rewrite Hp. reflexivity.
Qed.

(** What [fetchLocal] does after a first fetch that did not give an ok
    response: a network failure is swallowed like a response that is not ok. *)
Lemma fetchLocal_second (net : Network) (filename : string) (h : history) :
  (exists msg, net h (localUrl filename) = NetworkFailure msg) \/
  (exists r, net h (localUrl filename) = Responded r /\ ok r = false) ->
  fetchLocal net filename h =
    (if startsWith filename "xpcshell-try-"
     then fetch net (localUrl (replace filename "xpcshell-" "mochitest-"))
     else fetch net (localUrl filename)) (h ++ [localUrl filename])%list.
Proof.
  intros H. unfold fetchLocal, bind, try_catch, fetch, ret.
  destruct H as [[msg Hnet] | [r [Hnet Hok]]]; rewrite Hnet; [|rewrite Hok];
    destruct (startsWith filename "xpcshell-try-"); reflexivity.
Qed.

(** On a page that is not served over https, [fetchData] fetches
    [./data/<filename>] and returns an ok response as it is. When that fetch
    fails on the network or gives a response that is not ok, the call ends
    as a second fetch ends: of the mochitest-renamed file for an
    [xpcshell-try-] name, of the same file again otherwise. *)
Theorem fetchData_local (net : Network) (location : Location) (fuel : nat)
    (filename : string) (h : history) :
  protocol location <> "https:" ->
  (forall r, net h (localUrl filename) = Responded r -> ok r = true ->
     fetchData net location fuel filename h = (Normal r, (h ++ [localUrl filename])%list)) /\
  ((exists msg, net h (localUrl filename) = NetworkFailure msg) \/
   (exists r, net h (localUrl filename) = Responded r /\ ok r = false) ->
     (forall rest, filename = "xpcshell-try-" ++ rest ->
        fetchData net location fuel filename h =
          fetch net (localUrl ("mochitest-try-" ++ rest)) (h ++ [localUrl filename])%list) /\
     (~ (exists rest, filename = "xpcshell-try-" ++ rest) ->
        fetchData net location fuel filename h =
          fetch net (localUrl filename) (h ++ [localUrl filename])%list)).
Proof.
  intros Hp. rewrite (fetchData_local_mode net location fuel filename h Hp).
  split.
  - intros r Hnet Hok. unfold fetchLocal, bind, try_catch, fetch, ret.
    rewrite Hnet, Hok. reflexivity.
  - intros H. rewrite (fetchLocal_second net filename h H). split.
    + intros rest ->. rewrite startsWith_app, replace_xpcshell_try. reflexivity.
    + intros Hno. destruct (startsWith filename "xpcshell-try-") eqn:E; [|reflexivity].
      exfalso. apply Hno. apply startsWith_iff. exact E.
Qed.

Lemma fetchData_local_witness :
  fetchData localPresent localPage 0 "xpcshell-components.json" [] =
    (Normal (mkResponse 200 "OK" (Some (Obj [("tests", Arr [])]))),
     [localUrl "xpcshell-components.json"]) /\
  fetchData localFiles localPage 0 "xpcshell-try-myfile.json" [] =
    (Normal (mkResponse 200 "OK" (Some (Obj [("tests", Arr [])]))),
     [localUrl "xpcshell-try-myfile.json"; localUrl "mochitest-try-myfile.json"]) /\
  fetchData localMissing localPage 0 "xpcshell-components.json" [] =
    (Normal (mkResponse 404 "Not Found" None),
     [localUrl "xpcshell-components.json"; localUrl "xpcshell-components.json"]).
Proof.
  assert (Hlocal : protocol localPage <> "https:") by discriminate.
  split; [|split].
  - apply (proj1 (fetchData_local localPresent localPage 0 "xpcshell-components.json" []
                    Hlocal) (mkResponse 200 "OK" (Some (Obj [("tests", Arr [])]))));
      reflexivity.
  - apply (proj1 (proj2 (fetchData_local localFiles localPage 0 "xpcshell-try-myfile.json" []
                           Hlocal)
                    (or_introl (ex_intro _ "Failed to fetch" eq_refl)))
             "myfile.json").
    reflexivity.
  - apply (proj2 (proj2 (fetchData_local localMissing localPage 0
                           "xpcshell-components.json" [] Hlocal)
                    (or_intror (ex_intro _ (mkResponse 404 "Not Found" None)
                                  (conj eq_refl eq_refl))))).
    intros [rest H]. discriminate H.
Defined.

(** Local mode stays local: it makes one or two requests, each for a file
    under [./data/]. *)
Theorem fetchData_local_requests (net : Network) (location : Location) (fuel : nat)
    (filename : string) (h : history) :
  protocol location <> "https:" ->
  exists added,
    snd (fetchData net location fuel filename h) = (h ++ added)%list /\
    (1 <= List.length added <= 2)%nat /\
    Forall (fun url => startsWith url "./data/" = true) added.
Proof.
  intros Hp. rewrite (fetchData_local_mode net location fuel filename h Hp).
  assert (Hdata : forall f, startsWith (localUrl f) "./data/" = true)
    by (intros f; apply startsWith_app).
  destruct (net h (localUrl filename)) as [msg|r] eqn:Hnet.
  - rewrite (fetchLocal_second net filename h (or_introl (ex_intro _ msg Hnet))).
    destruct (startsWith filename "xpcshell-try-").
    + exists [localUrl filename; localUrl (replace filename "xpcshell-" "mochitest-")].
      split; [|split; [simpl; lia | repeat constructor; apply Hdata]].
      unfold fetch. destruct (net (h ++ [localUrl filename])%list _);
        cbn [snd]; rewrite <- app_assoc; reflexivity.
    + exists [localUrl filename; localUrl filename].
      split; [|split; [simpl; lia | repeat constructor; apply Hdata]].
      unfold fetch. destruct (net (h ++ [localUrl filename])%list _);
        cbn [snd]; rewrite <- app_assoc; reflexivity.
  - destruct (ok r) eqn:Hok.
    + exists [localUrl filename].
      split; [|split; [simpl; lia | repeat constructor; apply Hdata]].
      unfold fetchLocal, bind, try_catch, fetch, ret. rewrite Hnet, Hok. reflexivity.
    + rewrite (fetchLocal_second net filename h
                 (or_intror (ex_intro _ r (conj Hnet Hok)))).
      destruct (startsWith filename "xpcshell-try-").
      * exists [localUrl filename; localUrl (replace filename "xpcshell-" "mochitest-")].
        split; [|split; [simpl; lia | repeat constructor; apply Hdata]].
        unfold fetch. destruct (net (h ++ [localUrl filename])%list _);
          cbn [snd]; rewrite <- app_assoc; reflexivity.
      * exists [localUrl filename; localUrl filename].
        split; [|split; [simpl; lia | repeat constructor; apply Hdata]].
        unfold fetch. destruct (net (h ++ [localUrl filename])%list _);
          cbn [snd]; rewrite <- app_assoc; reflexivity.
Qed.

Lemma fetchData_local_requests_witness :
  exists added,
    snd (fetchData localFiles localPage 0 "xpcshell-try-myfile.json" []) = added /\
    (1 <= List.length added <= 2)%nat /\
    Forall (fun url => startsWith url "./data/" = true) added.
Proof.
  apply (fetchData_local_requests localFiles localPage 0 "xpcshell-try-myfile.json" []).
  discriminate.
Defined.

(** ** The try-revision branch, case by case *)

(** When the requested harness has a task and its artifact is ok, that
    response is returned after this one artifact request: the other harness
    is not asked, whether it has a task or not. *)
Theorem fetchData_requested_artifact (net : Network) (location : Location) (fuel : nat)
    (filename harness revision : string) (h h1 : history) (jobs : TimingsJobs)
    (taskId : string) (r : Response) :
  protocol location = "https:" ->
  TryRevisionFilename filename harness revision ->
  findTimingsJobsForRevision net fuel revision h = (Normal jobs, h1) ->
  truthy (timingsJob jobs harness) = true ->
  to_string (timingsJob jobs harness) = value taskId ->
  net h1 (artifactUrl taskId filename) = Responded r ->
  ok r = true ->
  fetchData net location fuel filename h =
    (Normal r, (h1 ++ [artifactUrl taskId filename])%list).
Proof.
  intros Hp Hf E Ht Hs Hnet Hok.
  rewrite (fetchData_try net location fuel filename harness revision h Hp Hf).
  unfold fetchTryRevision.
  rewrite (try_block_located _ _ _ _ h h1 jobs E).
  rewrite Ht, Hs. unfold bind, try_catch, lift, value, ret.
  rewrite (fetch_response net _ h1 r Hnet), Hok. reflexivity.
Qed.

Lemma fetchData_requested_artifact_witness :
  fetchData xpcshellJob dashboard 2 xpcshellFile [] =
    (Normal (mkResponse 200 "OK" (Some (Obj [("tests", Arr [])]))),
     [pushUrl revision0; jobsUrl "555"; artifactUrl "T1" xpcshellFile]).
Proof.
  apply (fetchData_requested_artifact xpcshellJob dashboard 2 xpcshellFile "xpcshell"
           revision0 [] [pushUrl revision0; jobsUrl "555"]
           (mkTimingsJobs (Str "T1") Null) "T1"
           (mkResponse 200 "OK" (Some (Obj [("tests", Arr [])])))); try reflexivity.
  repeat split. left. reflexivity.
Defined.

(** An xpcshell request when the locator found no mochitest task: without
    an xpcshell task, or with one whose artifact is not ok, the answer is the
    404 response that says no xpcshell timings job was found. The artifact's
    own response, whatever its status, is not what the caller gets. *)
Theorem fetchData_no_xpcshell_job (net : Network) (location : Location) (fuel : nat)
    (filename revision : string) (h h1 : history) (jobs : TimingsJobs) :
  protocol location = "https:" ->
  TryRevisionFilename filename "xpcshell" revision ->
  findTimingsJobsForRevision net fuel revision h = (Normal jobs, h1) ->
  truthy (mochitest jobs) = false ->
  let noJob :=
    newResponse 404 ("No xpcshell-timings job found for revision " ++ revision) in
  (truthy (xpcshell jobs) = false ->
     fetchData net location fuel filename h = (Normal noJob, h1)) /\
  (forall taskId r,
     truthy (xpcshell jobs) = true ->
     to_string (xpcshell jobs) = value taskId ->
     net h1 (artifactUrl taskId filename) = Responded r ->
     ok r = false ->
     fetchData net location fuel filename h =
       (Normal noJob, (h1 ++ [artifactUrl taskId filename])%list)).
Proof.
  intros Hp Hf E Hm noJob.
  rewrite (fetchData_try net location fuel filename "xpcshell" revision h Hp Hf).
  unfold fetchTryRevision.
  rewrite (try_block_located _ _ _ _ h h1 jobs E).
  rewrite timingsJob_xpcshell, Hm. split.
  - intros Hx. rewrite Hx. reflexivity.
  - intros taskId r Hx Hs Hnet Hok. rewrite Hx, Hs.
    unfold bind, try_catch, lift, value, ret.
    rewrite (fetch_response net _ h1 r Hnet), Hok. reflexivity.
Qed.

Lemma fetchData_no_xpcshell_job_witness :
  fetchData stateless dashboard 2 xpcshellFile [] =
    (Normal (mkResponse 404
               ("No xpcshell-timings job found for revision " ++ revision0) None),
     [pushUrl revision0; jobsUrl "555"]) /\
  fetchData treeherder dashboard 3 xpcshellFile [] =
    (Normal (mkResponse 404
               ("No xpcshell-timings job found for revision " ++ revision0) None),
     [pushUrl revision0; jobsUrl "555"; page2Url; artifactUrl "J2" xpcshellFile]).
Proof.
  assert (Hf : TryRevisionFilename xpcshellFile "xpcshell" revision0)
    by (repeat split; left; reflexivity).
  split.
  - apply (proj1 (fetchData_no_xpcshell_job stateless dashboard 2 xpcshellFile revision0
                    [] [pushUrl revision0; jobsUrl "555"] (mkTimingsJobs Null Null)
                    eq_refl Hf eq_refl eq_refl)).
    reflexivity.
  - apply (proj2 (fetchData_no_xpcshell_job treeherder dashboard 3 xpcshellFile revision0
                    [] [pushUrl revision0; jobsUrl "555"; page2Url]
                    (mkTimingsJobs (Str "J2") Null)
                    eq_refl Hf eq_refl eq_refl)
             "J2" (mkResponse 404 "Not Found" None)); reflexivity.
Defined.





(** ** When [fetchData] rejects, and where its responses come from *)







(** On the try-revision branch a response handed to the caller is either
    the network's answer to the last request, or the 404 response built in
    the [catch] clause: a response that is ok is never made up. *)
Theorem fetchData_try_response_origin (net : Network) (location : Location) (fuel : nat)
    (filename harness revision : string) (h h' : history) (r : Response) :
  protocol location = "https:" ->
  TryRevisionFilename filename harness revision ->
  fetchData net location fuel filename h = (Normal r, h') ->
  (exists text, r = newResponse 404 text) \/
  (exists before address,
     h' = (before ++ [address])%list /\ net before address = Responded r).
Proof.
  intros Hp Hf.
  rewrite (fetchData_try net location fuel filename harness revision h Hp Hf).
  destruct (findTimingsJobsForRevision net fuel revision h) as [[jobs|e|] h1] eqn:E.
  - unfold fetchTryRevision.
    rewrite (try_block_located _ _ _ _ h h1 jobs E).
    unfold bind, try_catch, lift, ret, throw, fetch.
    repeat match goal with
           | |- context [if ?b then _ else _] => destruct b
           | |- context [match to_string ?v with _ => _ end] => destruct (to_string v)
           | |- context [match net ?a ?b with _ => _ end] =>
               let Hn := fresh "Hnet" in destruct (net a b) eqn:Hn
           end;
      intros [= <- <-];
      first [ left; eexists; reflexivity
            | right; eexists _, _; split; [reflexivity | eassumption] ].
  - rewrite (locator_failure_is_404 net fuel filename harness revision h h1 e E).
    intros [= <- <-]. left. eexists. reflexivity.
  - unfold fetchTryRevision, bind, try_catch. rewrite E. discriminate.
Qed.

Lemma fetchData_try_response_origin_witness :
  (exists text, mkResponse 200 "OK" (Some (Obj [("tests", Arr [])])) = newResponse 404 text) \/
  (exists before address,
     [pushUrl revision0; jobsUrl "555"; artifactUrl "T1" xpcshellFile]
       = (before ++ [address])%list /\
     xpcshellJob before address
       = Responded (mkResponse 200 "OK" (Some (Obj [("tests", Arr [])])))).
Proof.
  apply (fetchData_try_response_origin xpcshellJob dashboard 2 xpcshellFile "xpcshell"
           revision0 [] [pushUrl revision0; jobsUrl "555"; artifactUrl "T1" xpcshellFile]
           (mkResponse 200 "OK" (Some (Obj [("tests", Arr [])]))) eq_refl).
  - repeat split. left. reflexivity.
  - reflexivity.
Defined.

(** ** The push lookup *)

Lemma bind_thrown_at {A B} (m : M A) (k : A -> M B) (h h' : history) (e : exn) :
  m h = (Thrown e, h') -> bind m k h = (Thrown e, h').
Proof. intros E. unfold bind. rewrite E. reflexivity. Qed.

Lemma fetchJson_unreachable (net : Network) (url : val) (address : string)
    (h : history) (msg : string) :
  to_string url = value address ->
  net h address = NetworkFailure msg ->
  fetchJson net url h = (Thrown (TypeError msg), (h ++ [address])%list).
Proof.
  intros Hs Hnet. unfold fetchJson.
  rewrite (bind_normal _ _ h h address (lift_value _ _ h Hs)).
  unfold bind, fetch. rewrite Hnet. reflexivity.
Qed.

(** The job locator stops at the push lookup, after this one request, when
    the lookup is not ok, or its body is falsy, has no [results] or has an
    empty [results] array: it throws "No push found". A network failure or
    a body that is not JSON is thrown as it is. *)
Theorem findTimingsJobs_push_lookup_fails (net : Network) (fuel : nat)
    (revision : string) (h : history) :
  let noPushError := Error ("No push found for revision " ++ revision ++ " on try") in
  let h1 := (h ++ [pushUrl revision])%list in
  (forall r, net h (pushUrl revision) = Responded r ->
     (ok r = false ->
        findTimingsJobsForRevision net fuel revision h = (Thrown noPushError, h1)) /\
     (forall pushResult,
        ok r = true -> body r = Some pushResult ->
        truthy pushResult = false \/
        truthy (member pushResult "results") = false \/
        member pushResult "results" = Arr [] ->
        findTimingsJobsForRevision net fuel revision h = (Thrown noPushError, h1)) /\
     (ok r = true -> body r = None ->
        exists msg,
          findTimingsJobsForRevision net fuel revision h = (Thrown (SyntaxError msg), h1))) /\
  (forall msg, net h (pushUrl revision) = NetworkFailure msg ->
     findTimingsJobsForRevision net fuel revision h = (Thrown (TypeError msg), h1)).
Proof.
  intros noPushError h1. unfold findTimingsJobsForRevision. rewrite try_catch_rethrow.
  split.
  - intros r Hnet.
    pose proof (fetchJson_response net (Str (pushUrl revision)) (pushUrl revision) h r
                  eq_refl Hnet) as F.
    fold h1 in F. split; [|split].
    + intros Hok. rewrite Hok in F.
      rewrite (bind_normal _ _ _ _ _ F). reflexivity.
    + intros pushResult Hok Hb Hno. rewrite Hok, Hb in F.
      rewrite (bind_normal _ _ _ _ _ F).
      assert (N : noPush pushResult = value true).
      { unfold noPush. destruct (truthy pushResult) eqn:Ht; [|reflexivity].
        cbn [negb]. rewrite (prop_member pushResult "results" Ht). cbn [check_bind value].
        destruct Hno as [Hf | [Hf | Hf]].
        - discriminate.
        - rewrite Hf. reflexivity.
        - rewrite Hf. reflexivity. }
      rewrite (bind_normal _ _ _ _ _ (lift_value _ _ _ N)). reflexivity.
    + intros Hok Hb. rewrite Hok, Hb in F. eexists.
      rewrite (bind_thrown_at _ _ _ _ _ F). reflexivity.
  - intros msg Hnet.
    rewrite (bind_thrown_at _ _ _ _ _
               (fetchJson_unreachable net (Str (pushUrl revision)) (pushUrl revision) h msg
                  eq_refl Hnet)).
    reflexivity.
Qed.

Lemma findTimingsJobs_push_lookup_fails_witness :
  findTimingsJobsForRevision indexServer 1 revision0 [] =
    (Thrown (Error ("No push found for revision " ++ revision0 ++ " on try")),
     [pushUrl revision0]) /\
  findTimingsJobsForRevision noPushFound 1 revision0 [] =
    (Thrown (Error ("No push found for revision " ++ revision0 ++ " on try")),
     [pushUrl revision0]) /\
  (exists msg,
     findTimingsJobsForRevision pushNotJson 1 revision0 [] =
       (Thrown (SyntaxError msg), [pushUrl revision0])) /\
  findTimingsJobsForRevision indexDown 1 revision0 [] =
    (Thrown (TypeError "NetworkError when attempting to fetch resource."),
     [pushUrl revision0]).
Proof.
  split; [|split; [|split]].
  - apply (proj1 (proj1 (findTimingsJobs_push_lookup_fails indexServer 1 revision0 [])
                    (mkResponse 404 "Not Found" None) eq_refl)).
    reflexivity.
  - apply (proj1 (proj2 (proj1 (findTimingsJobs_push_lookup_fails noPushFound 1 revision0 [])
                           (mkResponse 200 "OK" (Some (Obj [("results", Arr [])]))) eq_refl))
             (Obj [("results", Arr [])]) eq_refl eq_refl).
    right. right. reflexivity.
  - apply (proj2 (proj2 (proj1 (findTimingsJobs_push_lookup_fails pushNotJson 1 revision0 [])
                           (mkResponse 200 "OK" None) eq_refl))); reflexivity.
  - apply (proj2 (findTimingsJobs_push_lookup_fails indexDown 1 revision0 [])
             "NetworkError when attempting to fetch resource.").
    reflexivity.
Defined.

(** ** One page of the listing *)

(** A page request that is answered 200 with a falsy JSON value ([null],
    [0], [false], [""]) ends the loop like a failed one: "Failed to fetch
    jobs" is thrown and the rows collected so far are dropped. A network
    failure, or a body that is not JSON, is thrown as it is. *)
Theorem collectJobs_page_fails (net : Network) (fuel : nat) (pushId : val)
    (shown : string) (allJobs : list val) (propertyNames url : val)
    (address : string) (h : history) :
  truthy url = true ->
  to_string url = value address ->
  to_string pushId = value shown ->
  let h1 := (h ++ [address])%list in
  (forall r page,
     net h address = Responded r -> ok r = true -> body r = Some page ->
     truthy page = false ->
     collectJobs net (S fuel) pushId allJobs propertyNames url h =
       (Thrown (Error ("Failed to fetch jobs for push ID " ++ shown)), h1)) /\
  (forall r,
     net h address = Responded r -> ok r = true -> body r = None ->
     exists msg,
       collectJobs net (S fuel) pushId allJobs propertyNames url h =
         (Thrown (SyntaxError msg), h1)) /\
  (forall msg,
     net h address = NetworkFailure msg ->
     collectJobs net (S fuel) pushId allJobs propertyNames url h =
       (Thrown (TypeError msg), h1)).
Proof.
  intros Hu Hs Hshown h1. cbn [collectJobs]. rewrite Hu. split; [|split].
  - intros r page Hnet Hok Hb Hp.
    pose proof (fetchJson_response net url address h r Hs Hnet) as F.
    rewrite Hok, Hb in F.
    rewrite (bind_normal _ _ _ _ _ F), Hp. cbn [negb].
    rewrite (bind_normal _ _ _ _ _ (lift_value _ _ _ Hshown)). reflexivity.
  - intros r Hnet Hok Hb.
    pose proof (fetchJson_response net url address h r Hs Hnet) as F.
    rewrite Hok, Hb in F. eexists.
    rewrite (bind_thrown_at _ _ _ _ _ F). reflexivity.
  - intros msg Hnet.
    rewrite (bind_thrown_at _ _ _ _ _ (fetchJson_unreachable net url address h msg Hs Hnet)).
    reflexivity.
Qed.

Lemma collectJobs_page_fails_witness :
  collectJobs nullListing 1 (Num 555) [Arr [Str "kept so far"]] (Arr [])
    (Str (jobsUrl "555")) [pushUrl revision0] =
    (Thrown (Error "Failed to fetch jobs for push ID 555"),
     [pushUrl revision0; jobsUrl "555"]) /\
  (exists msg,
     collectJobs pushNotJson 1 (Num 555) [] (Arr []) (Str (pushUrl revision0)) [] =
       (Thrown (SyntaxError msg), [pushUrl revision0])) /\
  collectJobs indexDown 1 (Num 555) [] (Arr []) (Str (jobsUrl "555")) [] =
    (Thrown (TypeError "NetworkError when attempting to fetch resource."),
     [jobsUrl "555"]).
Proof.
  split; [|split].
  - apply (proj1 (collectJobs_page_fails nullListing 0 (Num 555) "555"
                    [Arr [Str "kept so far"]] (Arr []) (Str (jobsUrl "555"))
                    (jobsUrl "555") [pushUrl revision0] eq_refl eq_refl eq_refl)
             (mkResponse 200 "OK" (Some Null)) Null); reflexivity.
  - apply (proj1 (proj2 (collectJobs_page_fails pushNotJson 0 (Num 555) "555"
                           [] (Arr []) (Str (pushUrl revision0))
                           (pushUrl revision0) [] eq_refl eq_refl eq_refl))
             (mkResponse 200 "OK" None)); reflexivity.
  - apply (proj2 (proj2 (collectJobs_page_fails indexDown 0 (Num 555) "555"
                           [] (Arr []) (Str (jobsUrl "555"))
                           (jobsUrl "555") [] eq_refl eq_refl eq_refl))
             "NetworkError when attempting to fetch resource.").
    reflexivity.
Defined.

(** ** A listing that never ends *)

Lemma collectJobs_loops (net : Network) (pushId : val) (address : string)
    (r : Response) (page : val) :
  (forall h0, net h0 address = Responded r) ->
  ok r = true ->
  body r = Some page ->
  truthy page = true ->
  member page "next" = Str address ->
  truthy (Str address) = true ->
  forall (fuel : nat) (allJobs : list val) (propertyNames : val) (h : history),
    truthy propertyNames = true ->
    fst (collectJobs net fuel pushId allJobs propertyNames (Str address) h) = Pending.
Proof.
  intros Hnet Hok Hb Hp Hnext Hu.
  induction fuel as [|fuel IH]; intros allJobs propertyNames h Hn;
    cbn [collectJobs]; rewrite Hu; [reflexivity|].
  assert (F : fetchJson net (Str address) h = (Normal page, (h ++ [address])%list)).
  { rewrite (fetchJson_response net (Str address) address h r eq_refl (Hnet h)), Hok, Hb.
    reflexivity. }
  rewrite (bind_normal _ _ _ _ _ F). rewrite Hp. cbn [negb].
  rewrite (bind_normal _ _ _ _ _ (lift_value _ _ _ (prop_member page "results" Hp))).
  rewrite (bind_normal _ _ _ _ _
             (lift_value _ _ _ (prop_member propertyNames "length" Hn))).
  assert (G : (if negb (truthy (member propertyNames "length"))
               then bind (lift (prop page "job_property_names"))
                      (fun names => ret (or_else names (Arr [])))
               else ret propertyNames) (h ++ [address])%list
              = (Normal (if truthy (member propertyNames "length")
                         then propertyNames else pageNames page),
                 (h ++ [address])%list)).
  { destruct (truthy (member propertyNames "length")); cbn [negb]; [reflexivity|].
    rewrite (bind_normal _ _ _ _ _
               (lift_value _ _ _ (prop_member page "job_property_names" Hp))).
    reflexivity. }
  rewrite (bind_normal _ _ _ _ _ G).
  rewrite (bind_normal _ _ _ _ _ (lift_value _ _ _ (prop_member page "next" Hp))).
  rewrite Hnext. apply IH.
  destruct (truthy (member propertyNames "length")); [exact Hn|].
  apply truthy_pageNames.
Qed.

(** The loop has no bound and does not notice a cycle: when the page served
    for the listing names its own URL as [next], the call has not settled
    after any number of requests. *)
Theorem fetchData_never_settles (net : Network) (location : Location)
    (filename harness revision : string) (h : history) (r0 r : Response)
    (pushResult pushId page : val) (shown : string) :
  protocol location = "https:" ->
  TryRevisionFilename filename harness revision ->
  net h (pushUrl revision) = Responded r0 ->
  ok r0 = true ->
  body r0 = Some pushResult ->
  PushFound pushResult pushId ->
  to_string pushId = value shown ->
  (forall h0, net h0 (jobsUrl shown) = Responded r) ->
  ok r = true ->
  body r = Some page ->
  truthy page = true ->
  member page "next" = Str (jobsUrl shown) ->
  forall fuel, fst (fetchData net location fuel filename h) = Pending.
Proof.
  intros Hp Hf Hnet0 Hok0 Hb0 Hpush Hshown Hnet Hok Hb Hpage Hnext fuel.
  rewrite (fetchData_try net location fuel filename harness revision h Hp Hf).
  unfold fetchTryRevision. unfold bind at 1. unfold try_catch. unfold bind at 1.
  rewrite (findTimingsJobs_after_push net fuel revision h r0 pushResult pushId shown
             Hnet0 Hok0 Hb0 Hpush Hshown).
  unfold bind at 1.
  pose proof (collectJobs_loops net pushId (jobsUrl shown) r page Hnet Hok Hb Hpage Hnext
                eq_refl fuel [] (Arr []) (h ++ [pushUrl revision])%list eq_refl) as L.
  destruct (collectJobs net fuel pushId [] (Arr []) (Str (jobsUrl shown))
              (h ++ [pushUrl revision])%list) as [c h2].
  cbn [fst] in L. subst c. reflexivity.
Qed.

Lemma fetchData_never_settles_witness :
  fst (fetchData loopingListing dashboard 7 xpcshellFile []) = Pending.
Proof.
  refine (fetchData_never_settles loopingListing dashboard xpcshellFile "xpcshell" revision0
            [] (mkResponse 200 "OK" (Some pushBody)) (mkResponse 200 "OK" (Some loopingPage))
            pushBody (Num 555) loopingPage "555" eq_refl _ _ _ _ _ _ _ _ _ _ _ 7%nat).
  - repeat split. left. reflexivity.
  - reflexivity.
  - reflexivity.
  - reflexivity.
  - exact pushBody_found.
  - reflexivity.
  - intros h0. reflexivity.
  - reflexivity.
  - reflexivity.
  - reflexivity.
  - reflexivity.
Defined.

(** ** Where the property names come from *)

Lemma propertyNamesAfter_skips (skipped : list val) (page : val) (rest : list val)
    (n : val) (names : list val) :
  Forall (fun p => pageNames p = Arr []) skipped ->
  member page "job_property_names" = Arr (n :: names) ->
  propertyNamesAfter (Arr []) (skipped ++ page :: rest) = Arr (n :: names).
Proof.
  intros Hs Hp. induction Hs as [|p skipped Hpn _ IH].
  - exact (propertyNamesAfter_first page rest n names Hp).
  - cbn [app propertyNamesAfter].
    change (truthy (member (Arr []) "length")) with false. cbv iota.
    rewrite Hpn. exact IH.
Qed.

(** The property names are those of the first page that has any: pages
    before it without names are passed over (their rows are still
    collected), and the names of every later page are ignored. *)
Theorem collectJobs_property_names (net : Network) (fuel : nat) (pushId : val)
    (shown : string) (h h' : history) (url : val)
    (skipped : list val) (page : val) (rest : list val) (n : val) (names : list val) :
  to_string pushId = value shown ->
  Listing net h url (skipped ++ page :: rest) Complete h' ->
  Forall (fun p => pageNames p = Arr []) skipped ->
  member page "job_property_names" = Arr (n :: names) ->
  (List.length (skipped ++ page :: rest) < fuel)%nat ->
  collectJobs net fuel pushId [] (Arr []) url h =
    (Normal (flat_map pageRows (skipped ++ page :: rest), Arr (n :: names)), h').
Proof.
  intros Hshown HL Hs Hp Hfuel.
  rewrite (collectJobs_listing net pushId shown h url _ Complete h' Hshown HL
             fuel [] (Arr []) eq_refl Hfuel).
  rewrite (propertyNamesAfter_skips skipped page rest n names Hs Hp).
  reflexivity.
Qed.

Lemma namesOnSecondPage_listing :
  Listing namesOnSecondPage [pushUrl revision0] (Str (jobsUrl "555"))
    ([bareFirstPage] ++ page2 :: []) Complete
    [pushUrl revision0; jobsUrl "555"; page2Url].
Proof.
  apply (Listing_page namesOnSecondPage [pushUrl revision0] (Str (jobsUrl "555"))
           (jobsUrl "555") (mkResponse 200 "OK" (Some bareFirstPage)) bareFirstPage
           [page2] Complete [pushUrl revision0; jobsUrl "555"; page2Url]); try reflexivity.
  apply (Listing_page namesOnSecondPage [pushUrl revision0; jobsUrl "555"] (Str page2Url)
           page2Url (mkResponse 200 "OK" (Some page2)) page2 [] Complete
           [pushUrl revision0; jobsUrl "555"; page2Url]); try reflexivity.
  apply (Listing_complete namesOnSecondPage [pushUrl revision0; jobsUrl "555"; page2Url] Null).
  reflexivity.
Qed.

Lemma collectJobs_property_names_witness :
  collectJobs namesOnSecondPage 3 (Num 555) [] (Arr []) (Str (jobsUrl "555"))
    [pushUrl revision0] =
    (Normal (map Arr someRows, Arr columns),
     [pushUrl revision0; jobsUrl "555"; page2Url]).
Proof.
  apply (collectJobs_property_names namesOnSecondPage 3 (Num 555) "555"
           [pushUrl revision0] [pushUrl revision0; jobsUrl "555"; page2Url]
           (Str (jobsUrl "555")) [bareFirstPage] page2 []
           (Str "job_type_name") [Str "task_id"; Str "state"]
           eq_refl namesOnSecondPage_listing).
  - repeat constructor.
  - reflexivity.
  - simpl. lia.
Defined.

(** ** The filter, on rows of any content *)

Lemma scanJob_filtered (jobTypeNameIndex taskIdIndex stateIndex : Z)
    (found : TimingsJobs) (cells : list val) :
  passesFilter jobTypeNameIndex taskIdIndex stateIndex cells = false ->
  scanJob jobTypeNameIndex taskIdIndex stateIndex found (Arr cells) = value found.
Proof.
  unfold passesFilter, scanJob, at_index, check_bind, value.
  fold (cellAt cells jobTypeNameIndex). fold (cellAt cells taskIdIndex).
  fold (cellAt cells stateIndex).
  intros H.
  destruct (is_string (cellAt cells stateIndex) "completed"); [|reflexivity].
  destruct (truthy (cellAt cells jobTypeNameIndex)); [|reflexivity].
  destruct (truthy (cellAt cells taskIdIndex)); [discriminate | reflexivity].
Qed.

(** An array row that is not exactly ["completed"], or has a falsy job-type
    name or task id, can be left out of the listing: it changes neither the
    result of the scan nor whether the scan throws, whatever its cells hold. *)
Theorem scanJobs_ignores_filtered (jobTypeNameIndex taskIdIndex stateIndex : Z)
    (found : TimingsJobs) (rows : list (list val)) :
  scanJobs jobTypeNameIndex taskIdIndex stateIndex found (map Arr rows) =
  scanJobs jobTypeNameIndex taskIdIndex stateIndex found
    (map Arr (filter (passesFilter jobTypeNameIndex taskIdIndex stateIndex) rows)).
Proof.
  revert found. induction rows as [|cells rows IH]; intros found; [reflexivity|].
  cbn [map filter scanJobs].
  destruct (passesFilter jobTypeNameIndex taskIdIndex stateIndex cells) eqn:E.
  - cbn [map scanJobs].
    destruct (scanJob jobTypeNameIndex taskIdIndex stateIndex found (Arr cells))
      as [e|found']; [reflexivity|].
    cbn [check_bind]. apply IH.
  - rewrite (scanJob_filtered jobTypeNameIndex taskIdIndex stateIndex found cells E).
    cbn [check_bind value]. apply IH.
Qed.

(** ** What the scan can record *)

Lemma scanJob_inv (jobTypeNameIndex taskIdIndex stateIndex : Z)
    (found found' : TimingsJobs) (job : val) :
  scanJob jobTypeNameIndex taskIdIndex stateIndex found job = value found' ->
  found' = found \/
  exists jobName taskId,
    at_index job stateIndex = value (Str "completed") /\
    at_index job jobTypeNameIndex = value (Str jobName) /\
    at_index job taskIdIndex = value taskId /\
    truthy taskId = true /\
    ((endsWith jobName "xpcshell-timings-rev" = true /\
      found' = mkTimingsJobs taskId (mochitest found)) \/
     (endsWith jobName "mochitest-timings-rev" = true /\
      found' = mkTimingsJobs (xpcshell found) taskId)).
Proof.
  unfold scanJob.
  destruct (at_index job jobTypeNameIndex) as [e|jobName]; [discriminate|].
  destruct (at_index job stateIndex) as [e|state]; [discriminate|].
  destruct (at_index job taskIdIndex) as [e|taskId]; [discriminate|].
  cbn [check_bind].
  destruct (is_string state "completed") eqn:Hs;
    [|intros [= <-]; left; reflexivity].
  destruct (truthy jobName) eqn:Hn; [|intros [= <-]; left; reflexivity].
  destruct (truthy taskId) eqn:Ht; [|intros [= <-]; left; reflexivity].
  cbn [negb orb]. apply is_string_eq in Hs. subst state.
  destruct jobName as [| |b|n|s|l|fs]; try discriminate.
  cbn [endsWith_method check_bind value].
  destruct (endsWith s "xpcshell-timings-rev") eqn:Ex.
  - intros [= <-]. right. exists s, taskId. auto 10.
  - destruct (endsWith s "mochitest-timings-rev") eqn:Em.
    + intros [= <-]. right. exists s, taskId. auto 10.
    + intros [= <-]. left. reflexivity.
Qed.

Lemma scanJobs_recorded (jobTypeNameIndex taskIdIndex stateIndex : Z)
    (listing : list val) (allJobs : list val) (found found' : TimingsJobs) :
  (forall job, In job allJobs -> In job listing) ->
  recordedFrom listing jobTypeNameIndex taskIdIndex stateIndex
    "xpcshell-timings-rev" (xpcshell found) ->
  recordedFrom listing jobTypeNameIndex taskIdIndex stateIndex
    "mochitest-timings-rev" (mochitest found) ->
  scanJobs jobTypeNameIndex taskIdIndex stateIndex found allJobs = value found' ->
  recordedFrom listing jobTypeNameIndex taskIdIndex stateIndex
    "xpcshell-timings-rev" (xpcshell found') /\
  recordedFrom listing jobTypeNameIndex taskIdIndex stateIndex
    "mochitest-timings-rev" (mochitest found').
Proof.
  revert found. induction allJobs as [|job allJobs IH]; intros found Hin Hx Hm.
  - intros [= <-]. auto.
  - cbn [scanJobs].
    destruct (scanJob jobTypeNameIndex taskIdIndex stateIndex found job)
      as [e|next] eqn:E; [discriminate|].
    cbn [check_bind]. apply IH.
    + intros j Hj. apply Hin. right. exact Hj.
    + destruct (scanJob_inv _ _ _ _ _ _ E)
        as [-> | (jobName & taskId & Hs & Hn & Ht & Htr & [[He ->] | [He ->]])].
      * exact Hx.
      * right. exists job, jobName. repeat split; auto. apply Hin. left. reflexivity.
      * exact Hx.
    + destruct (scanJob_inv _ _ _ _ _ _ E)
        as [-> | (jobName & taskId & Hs & Hn & Ht & Htr & [[He ->] | [He ->]])].
      * exact Hm.
      * exact Hm.
      * right. exists job, jobName. repeat split; auto. apply Hin. left. reflexivity.
Qed.

(** Whatever the rows hold, when the scan returns, each entry of its result
    is [null] or the truthy task id of a completed job of the listing whose
    type name ends with that harness's marker: a truthy entry is never made
    up, and an entry is never a falsy value other than [null]. *)
Theorem scanJobs_sound (jobTypeNameIndex taskIdIndex stateIndex : Z)
    (allJobs : list val) (timingsJobs : TimingsJobs) :
  scanJobs jobTypeNameIndex taskIdIndex stateIndex (mkTimingsJobs Null Null) allJobs
    = value timingsJobs ->
  recordedFrom allJobs jobTypeNameIndex taskIdIndex stateIndex
    "xpcshell-timings-rev" (xpcshell timingsJobs) /\
  recordedFrom allJobs jobTypeNameIndex taskIdIndex stateIndex
    "mochitest-timings-rev" (mochitest timingsJobs).
Proof.
  apply scanJobs_recorded.
  - auto.
  - left. reflexivity.
  - left. reflexivity.
Qed.

Lemma scanJobs_sound_witness :
  recordedFrom (map Arr someRows) 0 1 2 "xpcshell-timings-rev" (Str "J2") /\
  recordedFrom (map Arr someRows) 0 1 2 "mochitest-timings-rev" Null.
Proof.
  apply (scanJobs_sound 0 1 2 (map Arr someRows) (mkTimingsJobs (Str "J2") Null)).
  reflexivity.
Defined.
